(** * docbase_mcp: the DocBase adapter of [src/index.ts]

    The program is one TypeScript module.  It reads two environment
    variables, builds a small HTTP client for the DocBase API and registers
    two tools, [searchMemos] and [getMemoDetail], with an MCP server.

    The development follows the module top to bottom:

    - [JS]: the fragment of the JavaScript run time the module relies on
      (numbers, values, property reads, [Number.prototype.toString],
      [JSON.stringify] with an indent of two, completions);
    - [Url]: the part of the URL parser that [new URL(path, BASE_URL)]
      exercises for a path-absolute reference against an https base;
    - [DocBase]: the client and the two tool handlers, over an arbitrary
      [fetch];
    - [Startup]: the effects of loading the module, as a trace.

    Strings are byte strings holding UTF-8. *)

From Stdlib Require Import ZArith NArith Nnat List String Ascii Bool Lia DecimalString.
From Stdlib Require Import Floats.SpecFloat.
From ExtLib Require Import Structures.Monad Structures.MonadExc Data.Monads.EitherMonad.
Import ListNotations.
Import MonadNotation.

Local Open Scope string_scope.
Local Open Scope monad_scope.

(* ===================================================================== *)
(** * The JavaScript run time                                             *)
(* ===================================================================== *)

Module JS.

(** ** Numbers

    A JavaScript number is an IEEE 754 binary64.  [spec_float] is the
    Standard Library's inductive description of such values; a finite value
    [S754_finite s m e] stands for [(-1)^s * m * 2^e]. *)

Definition number : Type := spec_float.

Definition prec : Z := 53%Z.
Definition emax : Z := 1024%Z.

(** A [spec_float] is a binary64 value when its mantissa is canonical. *)
Definition is_binary64 (x : number) : bool := valid_binary prec emax x.

(** The number denoted by an integer literal. *)
Definition of_Z (z : Z) : number := binary_normalize prec emax z 0 false.

(** [a > b] and [a <= b]; both are false as soon as one side is [NaN]. *)
Definition gt (a b : number) : bool := SFltb b a.
Definition le (a b : number) : bool := SFleb a b.

(** [ToBoolean] on a number: [+0], [-0] and [NaN] are falsy. *)
Definition truthy_number (x : number) : bool :=
  match x with
  | S754_zero _ | S754_nan => false
  | _ => true
  end.

Definition is_finite (x : number) : bool :=
  match x with
  | S754_zero _ | S754_finite _ _ _ => true
  | _ => false
  end.

(** ** Decimal digits *)

Definition digits_of_Z (z : Z) : string :=
  NilZero.string_of_uint (N.to_uint (Z.to_N z)).

Fixpoint repeat_string (s : string) (n : nat) : string :=
  match n with
  | O => ""
  | S n' => s ++ repeat_string s n'
  end.

Definition take (n : nat) (s : string) : string := substring 0 n s.
Definition drop (n : nat) (s : string) : string := substring n (length s - n) s.

Local Open Scope Z_scope.

(** ** [Number.prototype.toString], radix 10

    ECMA-262, Number::toString: for a finite non-zero [x] take integers
    [n], [k], [s] with [k >= 1], [10^(k-1) <= s < 10^k], [s * 10^(n-k)]
    rounding to [x], and [k] as small as possible; the digits of [s] are then
    laid out according to [n].

    [x = m * 2^e] is written [4m * 2^(e-2)], so that the two midpoints to its
    neighbours are [(4m - d) * 2^(e-2)] and [(4m + 2) * 2^(e-2)], with [d = 1]
    where the binade changes below [x] and [d = 2] elsewhere.  A decimal
    rounds to [x] when it lies between the midpoints, the midpoints included
    when [m] is even. *)

Definition cdiv (a b : Z) : Z := - ((- a) / b).
(** [a / b] rounded to the nearest integer, a tie going to the even one. *)
Definition round_div (a b : Z) : Z :=
  let q := a / b in
  let r2 := 2 * (a mod b) in
  if r2 <? b then q
  else if b <? r2 then q + 1
  else if Z.even q then q else q + 1.
Definition clamp (lo hi v : Z) : Z := Z.max lo (Z.min hi v).

(** The multiple [s * 10^p] nearest to [m * 2^e] among those that round to
    it, if there is one; of two that are equally near, the even [s]. *)
Definition decimal_candidate (m : positive) (e p : Z) : option Z :=
  let boundary := (Pos.eqb m (2 ^ 52) && (-1074 <? e))%bool in
  let X := 4 * Zpos m in
  let LO := X - (if boundary then 1 else 2) in
  let HI := X + 2 in
  let E := e - 2 in
  let a := (if 0 <=? E then 2 ^ E else 1) * (if p <? 0 then 10 ^ (- p) else 1) in
  let b := (if E <? 0 then 2 ^ (- E) else 1) * (if 0 <=? p then 10 ^ p else 1) in
  let closed := Z.even (Zpos m) in
  let s_lo := if closed then cdiv (LO * a) b else (LO * a) / b + 1 in
  let s_hi := if closed then (HI * a) / b else cdiv (HI * a) b - 1 in
  if s_lo <=? s_hi then Some (clamp s_lo s_hi (round_div (X * a) b)) else None.

(** The largest [p] that has a candidate gives the fewest digits.  [p0] is
    above the decimal exponent of [x]; seventeen digits always suffice, so
    the search ends well within the window. *)
Fixpoint shortest_from (m : positive) (e p : Z) (fuel : nat) : Z * Z :=
  match fuel with
  | O => (Zpos m, p)
  | S fuel' =>
      match decimal_candidate m e p with
      | Some s => (s, p)
      | None => shortest_from m e (p - 1) fuel'
      end
  end.

Definition shortest_decimal (m : positive) (e : Z) : Z * Z :=
  let p0 := (Zpos (digits2_pos m) + e) * 30103 / 100000 + 2 in
  shortest_from m e p0 32.

(** Steps 6 to 10 of Number::toString. *)
Definition layout_decimal (s p : Z) : string :=
  let ds := digits_of_Z s in
  let k := Z.of_nat (length ds) in
  let n := p + k in
  if (k <=? n) && (n <=? 21) then
    ds ++ repeat_string "0" (Z.to_nat (n - k))
  else if (0 <? n) && (n <=? 21) then
    take (Z.to_nat n) ds ++ "." ++ drop (Z.to_nat n) ds
  else if (-6 <? n) && (n <=? 0) then
    "0." ++ repeat_string "0" (Z.to_nat (- n)) ++ ds
  else
    let ex := n - 1 in
    let sign := if ex <? 0 then "-" else "+" in
    (if k =? 1 then ds else take 1 ds ++ "." ++ drop 1 ds)
      ++ "e" ++ sign ++ digits_of_Z (Z.abs ex).

Definition Number_toString (x : number) : string :=
  match x with
  | S754_nan => "NaN"
  | S754_zero _ => "0"
  | S754_infinity s => (if s then "-" else "") ++ "Infinity"
  | S754_finite s m e =>
      let '(d, p) := shortest_decimal m e in
      (if s then "-" else "") ++ layout_decimal d p
  end.

Local Close Scope Z_scope.

(** ** Values

    The values the module handles: what [response.json()] yields, and the
    object literals the handlers build.  An object is the list of its own
    enumerable properties in enumeration order; a missing property and a
    property holding [undefined] read the same. *)

#[warnings="-register-all"]
Inductive value : Type :=
| Undefined
| Null
| Bool (b : bool)
| Num (n : number)
| Str (s : string)
| Arr (elems : list value)
| Obj (props : list (string * value)).

Fixpoint lookup (k : string) (props : list (string * value)) : option value :=
  match props with
  | [] => None
  | (k', v) :: rest => if String.eqb k k' then Some v else lookup k rest
  end.

(** ** Errors and completions

    [Error_new msg] is [new Error(msg)].  A [TypeError] is raised by the
    engine; its text is the engine's (V8's wording is used) and no statement
    below depends on it.  [HostError] stands for any other instance of
    [Error], such as a network failure reported by [fetch] or the
    [SyntaxError] of [response.json()]. *)

Inductive Error : Type :=
| Error_new (message : string)
| TypeError (message : string)
| HostError (name message : string).

Definition message (e : Error) : string :=
  match e with
  | Error_new m | TypeError m | HostError _ m => m
  end.

(** What a [throw] carries: an instance of [Error], or any other value. *)
Inductive thrown : Type :=
| ErrorInstance (e : Error)
| NonError (v : value).

(** [error instanceof Error] *)
Definition instanceof_Error (t : thrown) : bool :=
  match t with
  | ErrorInstance _ => true
  | NonError _ => false
  end.

(** The outcome of evaluating an expression or awaiting a promise:
    [inr a] is normal completion (a fulfilled promise), [inl t] an abrupt
    one (a rejected promise). *)
Definition completion : Type -> Type := sum thrown.

Definition type_name (v : value) : string :=
  match v with
  | Null => "null"
  | _ => "undefined"
  end.

(** [v.k] for a property [k] that no prototype defines: reading from
    [undefined] or [null] throws, an object yields its own property, and
    every other value yields [undefined]. *)
Definition Get (v : value) (k : string) : completion value :=
  match v with
  | Undefined | Null =>
      raise (ErrorInstance (TypeError
        ("Cannot read properties of " ++ type_name v ++ " (reading '" ++ k ++ "')")))
  | Obj props =>
      ret (match lookup k props with Some x => x | None => Undefined end)
  | _ => ret Undefined
  end.

(** The callback of [Array.prototype.map], run on each element in order;
    the first abrupt completion ends the loop. *)
Fixpoint map_elements (f : value -> completion value) (l : list value)
  : completion (list value) :=
  match l with
  | [] => ret []
  | x :: rest =>
      y <- f x ;;
      ys <- map_elements f rest ;;
      ret (y :: ys)
  end.

(** [v.map(f)], [callee] being the source text of [v.map]: only an array
    has a [map] method; reading [map] from [undefined] or [null] throws, and
    calling what any other JSON value holds there throws as well. *)
Definition Array_map (callee : string) (v : value) (f : value -> completion value)
  : completion value :=
  match v with
  | Arr elems => l <- map_elements f elems ;; ret (Arr l)
  | Undefined | Null =>
      raise (ErrorInstance (TypeError
        ("Cannot read properties of " ++ type_name v ++ " (reading 'map')")))
  | _ => raise (ErrorInstance (TypeError (callee ++ " is not a function")))
  end.

(** ** [JSON.stringify(value, null, 2)] *)

Definition char (n : nat) : string := String (ascii_of_nat n) "".
Definition dquote : string := char 34.
Definition newline : string := char 10.

Definition hex_digit (upper : bool) (n : nat) : string :=
  if Nat.ltb n 10 then char (48 + n)
  else char ((if upper then 55 else 87) + n).

(** QuoteJSONString, one code unit at a time. *)
Definition quote_char (c : ascii) : string :=
  let n := nat_of_ascii c in
  if Nat.eqb n 8 then "\b"
  else if Nat.eqb n 9 then "\t"
  else if Nat.eqb n 10 then "\n"
  else if Nat.eqb n 12 then "\f"
  else if Nat.eqb n 13 then "\r"
  else if Nat.eqb n 34 then "\" ++ dquote
  else if Nat.eqb n 92 then "\\"
  else if Nat.ltb n 32 then
    "\u00" ++ hex_digit false (Nat.div n 16) ++ hex_digit false (Nat.modulo n 16)
  else String c "".

Fixpoint quote_chars (s : string) : string :=
  match s with
  | EmptyString => ""
  | String c rest => quote_char c ++ quote_chars rest
  end.

Definition QuoteJSONString (s : string) : string :=
  dquote ++ quote_chars s ++ dquote.

Definition gap : string := "  ".

Fixpoint join (sep : string) (l : list string) : string :=
  match l with
  | [] => ""
  | [x] => x
  | x :: rest => x ++ sep ++ join sep rest
  end.

(** The text between the brackets of a non-empty array or object. *)
Definition wrap (opening closing stepback indent : string) (partial : list string)
  : string :=
  opening ++ newline ++ indent
    ++ join ("," ++ newline ++ indent) partial
    ++ newline ++ stepback ++ closing.

(** SerializeJSONProperty; [None] is the [undefined] that makes
    SerializeJSONObject skip a property and SerializeJSONArray write
    [null]. *)
Fixpoint SerializeJSONProperty (stepback : string) (v : value) : option string :=
  let indent := stepback ++ gap in
  match v with
  | Undefined => None
  | Null => Some "null"
  | Bool true => Some "true"
  | Bool false => Some "false"
  | Num n => Some (if is_finite n then Number_toString n else "null")
  | Str s => Some (QuoteJSONString s)
  | Arr elems =>
      let partial :=
        (fix items (l : list value) : list string :=
           match l with
           | [] => []
           | x :: rest =>
               match SerializeJSONProperty indent x with
               | Some t => t
               | None => "null"
               end :: items rest
           end) elems in
      Some (match partial with
            | [] => "[]"
            | _ => wrap "[" "]" stepback indent partial
            end)
  | Obj props =>
      let partial :=
        (fix members (l : list (string * value)) : list string :=
           match l with
           | [] => []
           | (k, x) :: rest =>
               match SerializeJSONProperty indent x with
               | Some t => (QuoteJSONString k ++ ": " ++ t) :: members rest
               | None => members rest
               end
           end) props in
      Some (match partial with
            | [] => "{}"
            | _ => wrap "{" "}" stepback indent partial
            end)
  end.

(** [JSON.stringify(v, null, 2)] for a [v] that is not [undefined]. *)
Definition JSON_stringify (v : value) : string :=
  match SerializeJSONProperty "" v with
  | Some t => t
  | None => "undefined"
  end.

(** ** Pretty-printed JSON, by nesting depth

    The text the specification asks of an answer, in its own words:
    pretty-printed JSON in which every nesting level is indented by two
    more spaces.  [pretty depth v] is the text of a [v] that sits [depth]
    levels deep: a non-empty array or object opens its bracket, puts each
    part on a line of its own behind [2 * (depth + 1)] spaces, parts
    separated by a comma at the end of the line, and closes the bracket on
    a line behind [2 * depth] spaces.  It is compared with
    [JSON_stringify] below. *)

Definition spaces (n : nat) : string := repeat_string " " n.

Definition bracket (opening closing : string) (depth : nat) (parts : list string)
  : string :=
  match parts with
  | [] => opening ++ closing
  | _ =>
      opening ++ newline
        ++ join ("," ++ newline) (map (fun t => spaces (2 * S depth) ++ t) parts)
        ++ newline ++ spaces (2 * depth) ++ closing
  end.

Fixpoint pretty (depth : nat) (v : value) : option string :=
  match v with
  | Undefined => None
  | Null => Some "null"
  | Bool b => Some (if b then "true" else "false")
  | Num n => Some (if is_finite n then Number_toString n else "null")
  | Str s => Some (QuoteJSONString s)
  | Arr elems =>
      Some (bracket "[" "]" depth
              (map (fun x => match pretty (S depth) x with
                             | Some t => t
                             | None => "null"
                             end) elems))
  | Obj props =>
      Some (bracket "{" "}" depth
              (flat_map (fun kx => match pretty (S depth) (snd kx) with
                                   | Some t => [QuoteJSONString (fst kx) ++ ": " ++ t]
                                   | None => []
                                   end) props))
  end.

End JS.

(* ===================================================================== *)
(** * URLs                                                                *)
(* ===================================================================== *)

Module Url.

Import JS.

(** The URL record, for a URL whose scheme and host are those of the base:
    the path is a list of segments, query and fragment are absent or a
    string.  [searchParams] holds the name and value pairs appended through
    [url.searchParams], decoded as they were given; on the wire they follow
    whatever [query] the parser found in the input. *)
Record URL : Type := mkURL {
  origin : string;
  path : list string;
  query : option string;
  fragment : option string;
  searchParams : list (string * string)
}.

Definition code (c : ascii) : nat := nat_of_ascii c.

Definition is_c0_control_or_space (c : ascii) : bool := Nat.leb (code c) 32.

Definition is_tab_or_newline (c : ascii) : bool :=
  Nat.eqb (code c) 9 || Nat.eqb (code c) 10 || Nat.eqb (code c) 13.

Fixpoint strip_leading (cs : list ascii) : list ascii :=
  match cs with
  | c :: rest => if is_c0_control_or_space c then strip_leading rest else cs
  | [] => []
  end.

Definition strip (cs : list ascii) : list ascii :=
  rev (strip_leading (rev (strip_leading cs))).

(** ** Percent-encode sets *)

Definition one_of (l : list nat) (c : ascii) : bool :=
  existsb (Nat.eqb (code c)) l.

Definition c0_control_set (c : ascii) : bool :=
  Nat.ltb (code c) 32 || Nat.ltb 126 (code c).

Definition fragment_set (c : ascii) : bool :=
  c0_control_set c || one_of [32; 34; 60; 62; 96] c.

Definition query_set (c : ascii) : bool :=
  c0_control_set c || one_of [32; 34; 35; 60; 62] c.

Definition special_query_set (c : ascii) : bool :=
  query_set c || one_of [39] c.

(** The path percent-encode set as the parser of the Node.js run time has
    it: the query set with [?], [`], [{] and [}].  (The URL Standard has
    since added [^], which that parser leaves as it is.) *)
Definition path_set (c : ascii) : bool :=
  query_set c || one_of [63; 96; 123; 125] c.

Definition percent_encode (set : ascii -> bool) (c : ascii) : string :=
  if set c then
    "%" ++ hex_digit true (Nat.div (code c) 16) ++ hex_digit true (Nat.modulo (code c) 16)
  else String c "".

Fixpoint percent_encode_all (set : ascii -> bool) (cs : list ascii) : string :=
  match cs with
  | [] => ""
  | c :: rest => percent_encode set c ++ percent_encode_all set rest
  end.

(** ** Path, query and fragment states *)

Definition is_single_dot (buffer : string) : bool :=
  existsb (String.eqb buffer) ["."; "%2e"; "%2E"].

Definition is_double_dot (buffer : string) : bool :=
  existsb (String.eqb buffer)
    [".."; ".%2e"; ".%2E"; "%2e."; "%2E."; "%2e%2e"; "%2e%2E"; "%2E%2e"; "%2E%2E"].

(** What the path state does with [buffer] when a segment ends, [slash]
    telling whether it ended on a slash. *)
Definition end_segment (buffer : string) (p : list string) (slash : bool)
  : list string :=
  if is_double_dot buffer then
    if slash then removelast p else (removelast p ++ [""])%list
  else if is_single_dot buffer then
    if slash then p else (p ++ [""])%list
  else (p ++ [buffer])%list.

Definition fragment_state (cs : list ascii) : string :=
  percent_encode_all fragment_set cs.

(** The query runs up to the first [#]. *)
Fixpoint query_state (cs : list ascii) (buffer : list ascii)
  : string * option string :=
  match cs with
  | [] => (percent_encode_all special_query_set buffer, None)
  | c :: rest =>
      if Nat.eqb (code c) 35 then
        (percent_encode_all special_query_set buffer, Some (fragment_state rest))
      else query_state rest (buffer ++ [c])%list
  end.

Fixpoint path_state (cs : list ascii) (buffer : string) (p : list string)
  : list string * option string * option string :=
  match cs with
  | [] => (end_segment buffer p false, None, None)
  | c :: rest =>
      if one_of [47; 92] c then
        path_state rest "" (end_segment buffer p true)
      else if Nat.eqb (code c) 63 then
        let '(q, f) := query_state rest [] in
        (end_segment buffer p false, Some q, f)
      else if Nat.eqb (code c) 35 then
        (end_segment buffer p false, None, Some (fragment_state rest))
      else path_state rest (buffer ++ percent_encode path_set c) p
  end.

(** [new URL(input, base)] for a path-absolute [input] (one that starts
    with a single slash) and a base that is an https origin: leading and
    trailing C0 controls and spaces are trimmed, tabs and newlines are
    dropped, the relative-slash state hands the rest to the path state.
    The program builds no other kind of input; nothing here fails, so the
    constructor does not throw. *)
Definition URL_new (input base : string) : URL :=
  let cs := filter (fun c => negb (is_tab_or_newline c))
                   (strip (list_ascii_of_string input)) in
  let parts :=
    match cs with
    | c :: rest => if Nat.eqb (code c) 47 then path_state rest "" []
                   else path_state cs "" []
    | [] => path_state [] "" []
    end in
  {| origin := base;
     path := fst (fst parts);
     query := snd (fst parts);
     fragment := snd parts;
     searchParams := [] |}.

(** [url.searchParams.append(name, value)] *)
Definition searchParams_append (u : URL) (name val : string) : URL :=
  {| origin := origin u; path := path u; query := query u;
     fragment := fragment u;
     searchParams := (searchParams u ++ [(name, val)])%list |}.

(** [url.pathname] *)
Definition pathname (u : URL) : string :=
  concat "" (map (fun seg => "/" ++ seg) (path u)).

End Url.

(* ===================================================================== *)
(** * The DocBase client and the two tools                                *)
(* ===================================================================== *)

Module DocBase.

Import JS Url.

Definition BASE_URL : string := "https://api.docbase.io".

(** ** Requests and responses *)

Record Request : Type := mkRequest {
  method : string;
  url : URL;
  headers : list (string * string)
}.

(** A response as the client looks at it: the status line, and what
    awaiting [response.json()] gives. *)
Record Response : Type := mkResponse {
  status : N;
  statusText : string;
  json : completion value
}.

(** [response.ok]: the status is in the range 200 to 299. *)
Definition ok (r : Response) : bool := ((200 <=? status r) && (status r <=? 299))%N.

(** ** Computations that call [fetch]

    A computation yields the requests it handed to [fetch], oldest first,
    and its completion.  The requests made before a [throw] stay made. *)

Definition io (A : Type) : Type := (list Request * completion A)%type.

Definition requests {A : Type} (m : io A) : list Request := fst m.
Definition outcome {A : Type} (m : io A) : completion A := snd m.

#[export] Instance Monad_io : Monad io :=
{ ret := fun _ a => ([], inr a)
; bind := fun _ _ m f =>
    match m with
    | (l, inl t) => (l, inl t)
    | (l, inr a) => let '(l', r) := f a in ((l ++ l')%list, r)
    end
}.

#[export] Instance Exception_io : MonadExc thrown io :=
{ raise := fun _ t => ([], inl t)
; catch := fun _ m h =>
    match m with
    | (l, inl t) => let '(l', r) := h t in ((l ++ l')%list, r)
    | done => done
    end
}.

(** An expression of the language proper makes no request. *)
Definition pure {A : Type} (c : completion A) : io A := ([], c).

(** ** Tool parameters and results

    The schemas declare [query] and [id] as strings and [page] and
    [perPage] as optional numbers; nothing narrows them further, so a
    handler may be called with any string and any number. *)

Record SearchMemosParams : Type := mkSearchMemosParams {
  query : string;
  page : option number;
  perPage : option number
}.

Record GetMemoDetailParams : Type := mkGetMemoDetailParams {
  id : string
}.

Record ContentBlock : Type := mkContentBlock {
  type : string;
  text : string
}.

Record CallToolResult : Type := mkCallToolResult {
  content : list ContentBlock
}.

Definition API_ERROR_PREFIX : string := "APIリクエストエラー: ".
Definition UNKNOWN_ERROR : string := "不明なエラーが発生しました".

(** A parameter with a default value takes it when the argument is
    [undefined]. *)
Definition default_to (d : number) (x : option number) : number :=
  match x with
  | Some v => v
  | None => d
  end.

Section Client.

(** The two module constants, as the start-up check leaves them, and the
    network. *)
Variable DOCBASE_TOKEN : string.
Variable DOCBASE_DOMAIN : string.
Variable fetch : Request -> completion Response.

(** [fetch(url, { headers })]; the method defaults to GET. *)
Definition fetch_url (u : URL) (hs : list (string * string)) : io Response :=
  let r := {| method := "GET"; url := u; headers := hs |} in
  ([r], fetch r).

Definition client_headers : list (string * string) :=
  [("X-DocBaseToken", DOCBASE_TOKEN); ("Content-Type", "application/json")].

(** The [throw new Error(...)] of both client methods. *)
Definition request_error (response : Response) : thrown :=
  ErrorInstance (Error_new
    (API_ERROR_PREFIX ++ Number_toString (of_Z (Z.of_N (status response)))
       ++ " " ++ statusText response)).

(** [createDocBaseClient().searchMemos(query, page = 1, perPage = 20)] *)
Definition client_searchMemos (query : string) (page perPage : option number)
  : io value :=
  let page := default_to (of_Z 1) page in
  let perPage := default_to (of_Z 20) perPage in
  let url := URL_new ("/teams/" ++ DOCBASE_DOMAIN ++ "/posts") BASE_URL in
  let url := searchParams_append url "q" query in
  let url := searchParams_append url "page" (Number_toString page) in
  let url := searchParams_append url "per_page" (Number_toString perPage) in
  response <- fetch_url url client_headers ;;
  if negb (ok response) then raise (request_error response)
  else pure (json response).

(** [createDocBaseClient().getMemo(id)] *)
Definition client_getMemo (id : string) : io value :=
  let url := URL_new ("/teams/" ++ DOCBASE_DOMAIN ++ "/posts/" ++ id) BASE_URL in
  response <- fetch_url url client_headers ;;
  if negb (ok response) then raise (request_error response)
  else pure (json response).

(** The [catch] clause of both handlers:
    [throw error instanceof Error ? error : new Error('...')]. *)
Definition rethrow (error : thrown) : thrown :=
  if instanceof_Error error then error
  else ErrorInstance (Error_new UNKNOWN_ERROR).

Definition try_rethrow {A : Type} (body : io A) : io A :=
  catch body (fun error => raise (rethrow error)).

(** [perPage && perPage > 100 ? 100 : perPage] *)
Definition limitedPerPage (perPage : option number) : option number :=
  let test :=
    match perPage with
    | None => false
    | Some v => if truthy_number v then gt v (of_Z 100) else false
    end in
  if test then Some (of_Z 100) else perPage.

Definition text_result (v : value) : CallToolResult :=
  {| content := [ {| type := "text"; text := JSON_stringify v |} ] |}.

(** The callback of [result.posts.map]. *)
Definition memo_of_post (post : value) : completion value :=
  id <- Get post "id" ;;
  title <- Get post "title" ;;
  url <- Get post "url" ;;
  ret (Obj [("id", id); ("title", title); ("url", url)]).

(** The object the search handler serialises. *)
Definition search_projection (result : value) : completion value :=
  posts <- Get result "posts" ;;
  memos <- Array_map "result.posts.map" posts memo_of_post ;;
  meta <- Get result "meta" ;;
  total <- Get meta "total" ;;
  meta <- Get result "meta" ;;
  next_page <- Get meta "next_page" ;;
  meta <- Get result "meta" ;;
  previous_page <- Get meta "previous_page" ;;
  ret (Obj [("memos", memos); ("total", total);
            ("nextPage", next_page); ("previousPage", previous_page)]).

(** The [try] block of the search handler. *)
Definition searchMemos_body (params : SearchMemosParams) : io CallToolResult :=
  let limited := limitedPerPage (perPage params) in
  result <- client_searchMemos (query params) (page params) limited ;;
  projected <- pure (search_projection result) ;;
  ret (text_result projected).

(** The handler registered as [searchMemos]. *)
Definition searchMemos (params : SearchMemosParams) : io CallToolResult :=
  try_rethrow (searchMemos_body params).

Definition name_of (x : value) : completion value := Get x "name".

(** The object the detail handler serialises. *)
Definition detail_projection (memo : value) : completion value :=
  id <- Get memo "id" ;;
  title <- Get memo "title" ;;
  body <- Get memo "body" ;;
  url <- Get memo "url" ;;
  created_at <- Get memo "created_at" ;;
  updated_at <- Get memo "updated_at" ;;
  tags <- Get memo "tags" ;;
  tags <- Array_map "memo.tags.map" tags name_of ;;
  user <- Get memo "user" ;;
  user <- Get user "name" ;;
  groups <- Get memo "groups" ;;
  groups <- Array_map "memo.groups.map" groups name_of ;;
  ret (Obj [("id", id); ("title", title); ("body", body); ("url", url);
            ("createdAt", created_at); ("updatedAt", updated_at);
            ("tags", tags); ("user", user); ("groups", groups)]).

(** The [try] block of the detail handler. *)
Definition getMemoDetail_body (params : GetMemoDetailParams) : io CallToolResult :=
  memo <- client_getMemo (id params) ;;
  projected <- pure (detail_projection memo) ;;
  ret (text_result projected).

(** The handler registered as [getMemoDetail]. *)
Definition getMemoDetail (params : GetMemoDetailParams) : io CallToolResult :=
  try_rethrow (getMemoDetail_body params).

(** ** The requests the two tools make, spelled out *)

Definition searchMemos_url (params : SearchMemosParams) : URL :=
  {| origin := BASE_URL;
     path := path (URL_new ("/teams/" ++ DOCBASE_DOMAIN ++ "/posts") BASE_URL);
     Url.query := Url.query (URL_new ("/teams/" ++ DOCBASE_DOMAIN ++ "/posts") BASE_URL);
     fragment := fragment (URL_new ("/teams/" ++ DOCBASE_DOMAIN ++ "/posts") BASE_URL);
     searchParams :=
       [("q", query params);
        ("page", Number_toString (default_to (of_Z 1) (page params)));
        ("per_page",
         Number_toString (default_to (of_Z 20) (limitedPerPage (perPage params))))] |}.

Definition searchMemos_request (params : SearchMemosParams) : Request :=
  {| method := "GET"; url := searchMemos_url params; headers := client_headers |}.

Definition getMemoDetail_request (params : GetMemoDetailParams) : Request :=
  {| method := "GET";
     url := URL_new ("/teams/" ++ DOCBASE_DOMAIN ++ "/posts/" ++ id params) BASE_URL;
     headers := client_headers |}.

(** ** The completions of the two tools, case by case *)

Definition search_outcome (params : SearchMemosParams) : completion CallToolResult :=
  match fetch (searchMemos_request params) with
  | inl t => inl (rethrow t)
  | inr response =>
      if ok response then
        match json response with
        | inl t => inl (rethrow t)
        | inr result =>
            match search_projection result with
            | inl t => inl (rethrow t)
            | inr projected => inr (text_result projected)
            end
        end
      else inl (request_error response)
  end.

Definition detail_outcome (params : GetMemoDetailParams) : completion CallToolResult :=
  match fetch (getMemoDetail_request params) with
  | inl t => inl (rethrow t)
  | inr response =>
      if ok response then
        match json response with
        | inl t => inl (rethrow t)
        | inr memo =>
            match detail_projection memo with
            | inl t => inl (rethrow t)
            | inr projected => inr (text_result projected)
            end
        end
      else inl (request_error response)
  end.

End Client.

(** ** Vocabulary of the statements *)

(** The value a request carries for the query parameter [name], among the
    pairs appended through [searchParams]. *)
Fixpoint param (name : string) (l : list (string * string)) : option string :=
  match l with
  | [] => None
  | (k, v) :: rest => if String.eqb name k then Some v else param name rest
  end.

Definition nullish (v : value) : bool :=
  match v with
  | Undefined | Null => true
  | _ => false
  end.

(** [v.k] where the read cannot throw. *)
Definition field (v : value) (k : string) : value :=
  match v with
  | Obj props => match lookup k props with Some x => x | None => Undefined end
  | _ => Undefined
  end.

Definition memo (post : value) : value :=
  Obj [("id", field post "id"); ("title", field post "title"); ("url", field post "url")].

(** Whether a status code is written with its decimal digits. *)
Definition status_digits_agree (n : N) : bool :=
  String.eqb (Number_toString (of_Z (Z.of_N n))) (digits_of_Z (Z.of_N n)).

(** A character the path state copies into the current segment as it is:
    printable ASCII outside the path percent-encode set, none of the four
    characters that end a segment or the path, and not the caret, on which
    parsers differ. *)
Definition plain_char (c : ascii) : bool :=
  Nat.ltb 32 (code c) && Nat.leb (code c) 126
  && negb (one_of [34; 35; 47; 60; 62; 63; 92; 94; 96; 123; 125] c).

(** A character the parser's preprocessing leaves in place. *)
Definition kept (c : ascii) : bool :=
  negb (is_c0_control_or_space c) && negb (is_tab_or_newline c).

(** A string that ends up as one path segment, unchanged. *)
Definition plain_segment (s : string) : bool :=
  forallb plain_char (list_ascii_of_string s)
  && negb (is_single_dot s) && negb (is_double_dot s).

End DocBase.

(* ===================================================================== *)
(** * Loading the module                                                  *)
(* ===================================================================== *)

Module Startup.

Import JS.

(** What the top level of the module does to the outside, in order. *)
Inductive effect : Type :=
| console_error (message : string)
| console_info (message : string)
| process_exit (code : Z)
| new_McpServer (name version : string)
| server_tool (name : string)
| new_StdioServerTransport
| server_connect.

(** [process.env]: a variable is unset or holds a string. *)
Definition environment : Type := string -> option string.

(** [!x] for [x] a string or [undefined]. *)
Definition not_ (x : option string) : bool :=
  match x with
  | None => true
  | Some s => String.eqb s ""
  end.

Definition TOKEN_MISSING : string :=
  "エラー: DOCBASE_TOKEN 環境変数が設定されていません。".
Definition DOMAIN_MISSING : string :=
  "エラー: DOCBASE_DOMAIN 環境変数が設定されていません。".

(** From [new McpServer] on: the two registrations, then [main()], whose
    [server.connect] either resolves or rejects.  [console.error] prints the
    error after the text; the trace keeps the text. *)
Definition serve (connect : completion unit) : list effect :=
  [ new_McpServer "docbase-mcp" "1.0.0";
    server_tool "searchMemos";
    server_tool "getMemoDetail";
    new_StdioServerTransport;
    server_connect ]
  ++ match connect with
     | inr _ => [ console_info "Docbase MCP Server running on stdin/stdout" ]
     | inl _ => [ console_error "Fatal error in main():"; process_exit 1 ]
     end.

(** The module, top to bottom; [process.exit] ends the run. *)
Definition load (env : environment) (connect : completion unit) : list effect :=
  if not_ (env "DOCBASE_TOKEN") then
    [ console_error TOKEN_MISSING; process_exit 1 ]
  else if not_ (env "DOCBASE_DOMAIN") then
    [ console_error DOMAIN_MISSING; process_exit 1 ]
  else serve connect.

Definition is_new_McpServer (e : effect) : bool :=
  match e with
  | new_McpServer _ _ => true
  | _ => false
  end.

Definition is_server_connect (e : effect) : bool :=
  match e with
  | server_connect => true
  | _ => false
  end.

End Startup.

(* ===================================================================== *)
(** * Sample data                                                         *)
(* ===================================================================== *)

Module Samples.

Import JS Url DocBase.

(** A network that answers every request with the same response. *)
Definition respond (code : N) (reason : string) (body : completion value)
  : Request -> completion Response :=
  fun _ => inr {| status := code; statusText := reason; json := body |}.

(** A network whose [fetch] rejects with [t]. *)
Definition reject (t : thrown) : Request -> completion Response :=
  fun _ => inl t.

Definition post7 : value :=
  Obj [("id", Num (of_Z 7)); ("title", Str "Release notes");
       ("body", Str "# 1.0"); ("url", Str "https://acme.docbase.io/posts/7")].

Definition post8 : value :=
  Obj [("id", Num (of_Z 8)); ("title", Str "Roadmap");
       ("url", Str "https://acme.docbase.io/posts/8")].

Definition search_body (posts : list value) : value :=
  Obj [("posts", Arr posts);
       ("meta", Obj [("previous_page", Null);
                     ("next_page", Str "https://api.docbase.io/teams/acme/posts?page=2");
                     ("total", Num (of_Z 42))])].

Definition detail_body : value :=
  Obj [("id", Num (of_Z 7)); ("title", Str "Release notes"); ("body", Str "# 1.0");
       ("draft", Bool false);
       ("url", Str "https://acme.docbase.io/posts/7");
       ("created_at", Str "2024-01-01T00:00:00+09:00");
       ("updated_at", Str "2024-01-02T00:00:00+09:00");
       ("tags", Arr [Obj [("name", Str "a")]; Obj [("name", Str "b")]]);
       ("user", Obj [("id", Num (of_Z 3)); ("name", Str "u")]);
       ("groups", Arr [Obj [("id", Num (of_Z 1)); ("name", Str "g")]])].

Definition search_test : SearchMemosParams :=
  {| query := "test"; page := None; perPage := None |}.

(** 2.5 *)
Definition two_and_a_half : number := S754_finite false 5629499534213120 (-51).

(** The environment with the given token and domain. *)
Definition env_of (token domain : option string) : Startup.environment :=
  fun name =>
    if String.eqb name "DOCBASE_TOKEN" then token
    else if String.eqb name "DOCBASE_DOMAIN" then domain
    else None.

(** Text with [']  standing for the double quote. *)
Fixpoint with_dquotes (s : string) : string :=
  match s with
  | EmptyString => ""
  | String c rest =>
      (if Nat.eqb (nat_of_ascii c) 39 then dquote else String c "")
        ++ with_dquotes rest
  end.

Definition lines (l : list string) : string := concat newline l.

(** What the search tool answers when the upstream finds [post7]. *)
Definition search_text_post7 : string :=
  with_dquotes (lines
    [ "{";
      "  'memos': [";
      "    {";
      "      'id': 7,";
      "      'title': 'Release notes',";
      "      'url': 'https://acme.docbase.io/posts/7'";
      "    }";
      "  ],";
      "  'total': 42,";
      "  'nextPage': 'https://api.docbase.io/teams/acme/posts?page=2',";
      "  'previousPage': null";
      "}" ]).

(** What the detail tool answers for [detail_body]. *)
Definition detail_text : string :=
  with_dquotes (lines
    [ "{";
      "  'id': 7,";
      "  'title': 'Release notes',";
      "  'body': '# 1.0',";
      "  'url': 'https://acme.docbase.io/posts/7',";
      "  'createdAt': '2024-01-01T00:00:00+09:00',";
      "  'updatedAt': '2024-01-02T00:00:00+09:00',";
      "  'tags': [";
      "    'a',";
      "    'b'";
      "  ],";
      "  'user': 'u',";
      "  'groups': [";
      "    'g'";
      "  ]";
      "}" ]).

End Samples.

(* ===================================================================== *)
(** * Shapes of upstream bodies and of ids                                *)
(* ===================================================================== *)

Module Shapes.

Import JS Url DocBase.

Definition not_nullish (v : value) : bool := negb (nullish v).

(** An array none of whose elements is [null] or [undefined]: what
    [v.map(x => x.k)] needs of [v] to complete. *)
Definition well_formed_array (v : value) : bool :=
  match v with
  | Arr l => forallb not_nullish l
  | _ => false
  end.

Definition elements (v : value) : list value :=
  match v with
  | Arr l => l
  | _ => []
  end.

(** What the search handler needs of a body: [posts] is such an array and
    [meta] can be read from. *)
Definition search_shape (result : value) : bool :=
  well_formed_array (field result "posts") && not_nullish (field result "meta").

(** The object the search handler builds from a body of that shape. *)
Definition search_object (result : value) : value :=
  Obj [("memos", Arr (map memo (elements (field result "posts"))));
       ("total", field (field result "meta") "total");
       ("nextPage", field (field result "meta") "next_page");
       ("previousPage", field (field result "meta") "previous_page")].

(** What the detail handler needs of a body. *)
Definition detail_shape (m : value) : bool :=
  well_formed_array (field m "tags")
  && not_nullish (field m "user")
  && well_formed_array (field m "groups").

(** The object the detail handler builds from a body of that shape. *)
Definition detail_object (m : value) : value :=
  Obj [("id", field m "id"); ("title", field m "title");
       ("body", field m "body"); ("url", field m "url");
       ("createdAt", field m "created_at");
       ("updatedAt", field m "updated_at");
       ("tags", Arr (map (fun tag => field tag "name") (elements (field m "tags"))));
       ("user", field (field m "user") "name");
       ("groups",
        Arr (map (fun group => field group "name") (elements (field m "groups"))))].

Definition is_TypeError (t : thrown) : bool :=
  match t with
  | ErrorInstance (TypeError _) => true
  | _ => false
  end.

(** The path state's rendering of a segment. *)
Definition encoded (s : string) : string :=
  percent_encode_all path_set (list_ascii_of_string s).

(** A character that stays inside the current path segment: not one of
    slash, backslash, question mark and hash, and not a tab or newline.
    The caret is left out as well: parsers differ on whether to encode
    it. *)
Definition segment_char (c : ascii) : bool :=
  negb (one_of [47; 92; 63; 35; 94] c) && negb (is_tab_or_newline c).

(** An id that the parser turns into one segment: made of such
    characters, not ending in a C0 control or space (which would be
    trimmed), and not rendered as a dot segment. *)
Definition one_segment (s : string) : bool :=
  forallb segment_char (list_ascii_of_string s)
  && negb (is_c0_control_or_space (last (list_ascii_of_string s) "/"%char))
  && negb (is_single_dot (encoded s)) && negb (is_double_dot (encoded s)).

(** A character of a query that the parser neither drops nor takes for the
    start of the fragment. *)
Definition query_char (c : ascii) : bool :=
  kept c && negb (Nat.eqb (code c) 35).

Definition query_text (s : string) : bool :=
  forallb query_char (list_ascii_of_string s).

(** The query state's rendering of a query. *)
Definition encoded_query (s : string) : string :=
  percent_encode_all special_query_set (list_ascii_of_string s).

(** Whether the whole numbers [n] as [page] and as [perPage] go out as the
    decimal digits of [n] and of [min n 100]. *)
Definition whole_number_goes_out_in_decimal (n : N) : bool :=
  String.eqb (Number_toString (default_to (of_Z 1) (Some (of_Z (Z.of_N n)))))
             (digits_of_Z (Z.of_N n))
  && String.eqb
       (Number_toString
          (default_to (of_Z 20) (limitedPerPage (Some (of_Z (Z.of_N n))))))
       (digits_of_Z (Z.min (Z.of_N n) 100)).

(** 8.0000152587890625, which lies midway between the sixteen-digit
    decimals 8.000015258789062 and 8.000015258789063. *)
Definition midway_number : number := S754_finite false 4503608217305088 (-49).

(** An id with a space in it. *)
Definition memo_id_with_space : string := "release notes".

Definition is_process_exit (e : Startup.effect) : bool :=
  match e with
  | Startup.process_exit _ => true
  | _ => false
  end.

(** Whether awaiting a promise ended in a rejection. *)
Definition rejected {A : Type} (c : completion A) : bool :=
  match c with
  | inl _ => true
  | inr _ => false
  end.

Definition body_without_meta : value :=
  Obj [("posts", Arr [Samples.post7])].

Definition body_with_null_tag : value :=
  Obj [("id", Num (of_Z 7));
       ("tags", Arr [Obj [("name", Str "a")]; Null]);
       ("user", Obj [("name", Str "u")]);
       ("groups", Arr [])].

Definition network_down : thrown :=
  ErrorInstance (HostError "TypeError" "fetch failed").

End Shapes.

(* ===================================================================== *)
(** * Properties                                                          *)
(* ===================================================================== *)

Import JS Url DocBase Samples Shapes.

Arguments Number_toString : simpl never.
Arguments URL_new : simpl never.
Arguments JSON_stringify : simpl never.
Arguments of_Z : simpl never.
Arguments search_projection : simpl never.
Arguments detail_projection : simpl never.
Arguments rethrow : simpl never.
Arguments text_result : simpl never.
Arguments request_error : simpl never.

(** ** Numbers *)

Lemma SFcompare_antisym (a b : number) :
  SFcompare a b = option_map CompOpp (SFcompare b a).
Proof.
  destruct a as [sa|sa| |sa ma ea], b as [sb|sb| |sb mb eb]; simpl;
    try reflexivity;
    try (destruct sa; reflexivity); try (destruct sb; reflexivity);
    try (destruct sa, sb; reflexivity).
  destruct sa, sb; try reflexivity;
    rewrite (Z.compare_antisym ea eb); destruct (ea ?= eb)%Z; simpl;
    try reflexivity;
    rewrite (Pos.compare_cont_antisym mb ma Eq); reflexivity.
Qed.

(** [v <= w] excludes [v > w]. *)
Lemma le_not_gt (v w : number) : le v w = true -> gt v w = false.
Proof.
  unfold le, gt, SFleb, SFltb. rewrite (SFcompare_antisym w v).
  destruct (SFcompare v w) as [[ | | ]|]; simpl; congruence.
Qed.

(** The conditional of the search handler is a plain comparison: the
    truthiness test in front of it changes nothing. *)
Lemma limitedPerPage_Some (v : number) :
  limitedPerPage (Some v) = Some (if gt v (of_Z 100) then of_Z 100 else v).
Proof.
  unfold limitedPerPage.
  destruct v as [s|s| |s m e]; simpl; try reflexivity.
  destruct (gt (S754_infinity s) (of_Z 100)); reflexivity.
  destruct (gt (S754_finite s m e) (of_Z 100)); reflexivity.
Qed.

(** ** The handlers unfolded *)

Section ClientProperties.

Variable token domain : string.
Variable fetch : Request -> completion Response.

Lemma client_searchMemos_eq (q : string) (pg pp : option number) :
  client_searchMemos token domain fetch q pg pp
  = let r := {| method := "GET";
         url := searchParams_append (searchParams_append (searchParams_append
                  (URL_new ("/teams/" ++ domain ++ "/posts") BASE_URL)
                  "q" q) "page" (Number_toString (default_to (of_Z 1) pg)))
                  "per_page" (Number_toString (default_to (of_Z 20) pp));
         headers := client_headers token |} in
    ([r], match fetch r with
          | inl t => inl t
          | inr response =>
             if ok response then json response else inl (request_error response)
          end).
Proof.
  unfold client_searchMemos, fetch_url. cbn.
  destruct (fetch _) as [t|response]; [reflexivity|].
  destruct (ok response); reflexivity.
Qed.

Lemma client_getMemo_eq (i : string) :
  client_getMemo token domain fetch i
  = let r := {| method := "GET";
         url := URL_new ("/teams/" ++ domain ++ "/posts/" ++ i) BASE_URL;
         headers := client_headers token |} in
    ([r], match fetch r with
          | inl t => inl t
          | inr response =>
             if ok response then json response else inl (request_error response)
          end).
Proof.
  unfold client_getMemo, fetch_url. cbn.
  destruct (fetch _) as [t|response]; [reflexivity|].
  destruct (ok response); reflexivity.
Qed.

(** The search handler makes one request, and completes as
    [search_outcome] says. *)
Lemma searchMemos_eq (params : SearchMemosParams) :
  searchMemos token domain fetch params
  = ([searchMemos_request token domain params],
     search_outcome token domain fetch params).
Proof.
  unfold searchMemos, searchMemos_body, try_rethrow, search_outcome.
  rewrite client_searchMemos_eq.
  change (searchParams_append _ _ _) with (searchMemos_url domain params).
  fold (searchMemos_request token domain params).
  cbn.
  destruct (fetch _) as [t|response]; [reflexivity|].
  destruct (ok response); [|reflexivity].
  destruct (json response) as [t|result]; [reflexivity|].
  destruct (search_projection result); reflexivity.
Qed.

(** So does the detail handler. *)
Lemma getMemoDetail_eq (params : GetMemoDetailParams) :
  getMemoDetail token domain fetch params
  = ([getMemoDetail_request token domain params],
     detail_outcome token domain fetch params).
Proof.
  unfold getMemoDetail, getMemoDetail_body, try_rethrow, detail_outcome.
  rewrite client_getMemo_eq.
  fold (getMemoDetail_request token domain params).
  cbn.
  destruct (fetch _) as [t|response]; [reflexivity|].
  destruct (ok response); [|reflexivity].
  destruct (json response) as [t|memo]; [reflexivity|].
  destruct (detail_projection memo); reflexivity.
Qed.

End ClientProperties.

(** ** The request of the search tool *)

Lemma toString_100 : Number_toString (of_Z 100) = "100".
Proof. vm_compute. reflexivity. Qed.

Lemma toString_1 : Number_toString (of_Z 1) = "1".
Proof. vm_compute. reflexivity. Qed.

Lemma toString_20 : Number_toString (of_Z 20) = "20".
Proof. vm_compute. reflexivity. Qed.

(** The search request carries three appended pairs. *)
Lemma searchMemos_request_params (token domain : string) (params : SearchMemosParams) :
  searchParams (url (searchMemos_request token domain params))
  = [("q", DocBase.query params);
     ("page", Number_toString (default_to (of_Z 1) (page params)));
     ("per_page",
      Number_toString (default_to (of_Z 20) (limitedPerPage (perPage params))))].
Proof. reflexivity. Qed.


(** ** URL parsing of plain segments *)

Lemma plain_char_facts (c : ascii) :
  plain_char c = true ->
  is_c0_control_or_space c = false /\ is_tab_or_newline c = false /\
  one_of [47; 92] c = false /\ Nat.eqb (code c) 63 = false /\
  Nat.eqb (code c) 35 = false /\ path_set c = false.
Proof.
  destruct c as [[] [] [] [] [] [] [] []]; vm_compute; intros H;
    try discriminate H; repeat split.
Qed.

Lemma list_ascii_of_string_app (a b : string) :
  list_ascii_of_string (a ++ b)
  = (list_ascii_of_string a ++ list_ascii_of_string b)%list.
Proof. induction a as [|c a IH]; simpl; [reflexivity | now rewrite IH]. Qed.

Lemma append_char_assoc (a : string) (c : ascii) (b : string) :
  (a ++ String c "") ++ b = a ++ String c b.
Proof. induction a as [|x a IH]; simpl; [reflexivity | now rewrite IH]. Qed.

Lemma string_append_assoc (a b c : string) : (a ++ b) ++ c = a ++ (b ++ c).
Proof. induction a as [|x a IH]; simpl; [reflexivity | now rewrite IH]. Qed.

Lemma append_empty_r (a : string) : a ++ "" = a.
Proof. induction a as [|x a IH]; simpl; [reflexivity | now rewrite IH]. Qed.

Lemma plain_char_kept (c : ascii) : plain_char c = true -> kept c = true.
Proof.
  intros H. destruct (plain_char_facts c H) as (H1 & H2 & _).
  unfold kept. now rewrite H1, H2.
Qed.

Lemma strip_leading_kept (cs : list ascii) :
  forallb kept cs = true -> strip_leading cs = cs.
Proof.
  destruct cs as [|c cs]; simpl; [reflexivity|].
  unfold kept at 1. destruct (is_c0_control_or_space c); simpl; [discriminate | reflexivity].
Qed.

Lemma forallb_rev {A : Type} (f : A -> bool) (l : list A) :
  forallb f l = true -> forallb f (rev l) = true.
Proof.
  rewrite !forallb_forall. intros H x Hx. apply H. now apply in_rev.
Qed.

Lemma preprocess_kept (cs : list ascii) :
  forallb kept cs = true ->
  filter (fun c => negb (is_tab_or_newline c)) (strip cs) = cs.
Proof.
  intros H. unfold strip.
  rewrite (strip_leading_kept cs H).
  rewrite (strip_leading_kept (rev cs) (forallb_rev _ _ H)).
  rewrite rev_involutive.
  induction cs as [|c cs IH]; simpl; [reflexivity|].
  simpl in H. apply andb_true_iff in H. destruct H as [Hc Hcs].
  unfold kept in Hc. apply andb_true_iff in Hc. destruct Hc as [_ Hc].
  rewrite Hc. now rewrite IH.
Qed.

(** The path state copies a run of plain characters into the buffer. *)
Lemma path_state_plain (seg : list ascii) :
  forallb plain_char seg = true ->
  forall (rest : list ascii) (buffer : string) (p : list string),
    path_state (seg ++ rest) buffer p
    = path_state rest (buffer ++ string_of_list_ascii seg) p.
Proof.
  induction seg as [|c seg IH]; intros H rest buffer p;
    cbn [app path_state string_of_list_ascii].
  - now rewrite append_empty_r.
  - simpl in H. apply andb_true_iff in H. destruct H as [Hc Hseg].
    destruct (plain_char_facts c Hc) as (_ & _ & H1 & H2 & H3 & H4).
    rewrite H1, H2, H3. unfold percent_encode. rewrite H4.
    rewrite (IH Hseg). now rewrite append_char_assoc.
Qed.

Lemma plain_segment_chars (s : string) :
  plain_segment s = true ->
  forallb plain_char (list_ascii_of_string s) = true /\
  is_single_dot s = false /\ is_double_dot s = false.
Proof.
  unfold plain_segment. intros H.
  apply andb_true_iff in H. destruct H as [H Hdd].
  apply andb_true_iff in H. destruct H as [H Hsd].
  apply negb_true_iff in Hdd. apply negb_true_iff in Hsd. auto.
Qed.

Lemma end_segment_plain (s : string) (p : list string) (slash : bool) :
  plain_segment s = true -> end_segment s p slash = (p ++ [s])%list.
Proof.
  intros H. destruct (plain_segment_chars s H) as (_ & Hsd & Hdd).
  unfold end_segment. now rewrite Hdd, Hsd.
Qed.

Lemma forallb_plain_kept (cs : list ascii) :
  forallb plain_char cs = true -> forallb kept cs = true.
Proof.
  rewrite !forallb_forall. intros H c Hc. apply plain_char_kept. now apply H.
Qed.

Lemma path_state_segment (s : string) (rest : list ascii) (p : list string) :
  plain_segment s = true ->
  path_state (list_ascii_of_string s ++ "/"%char :: rest) "" p
  = path_state rest "" (p ++ [s]).
Proof.
  intros H. destruct (plain_segment_chars s H) as (Hchars & _ & _).
  rewrite (path_state_plain _ Hchars). cbn [append].
  rewrite string_of_list_ascii_of_string.
  cbn [path_state]. change (one_of [47; 92] "/"%char) with true. cbv iota.
  now rewrite end_segment_plain.
Qed.

Lemma path_state_last (s : string) (p : list string) :
  plain_segment s = true ->
  path_state (list_ascii_of_string s) "" p = ((p ++ [s])%list, None, None).
Proof.
  intros H. destruct (plain_segment_chars s H) as (Hchars & _ & _).
  rewrite <- (app_nil_r (list_ascii_of_string s)).
  rewrite (path_state_plain _ Hchars). cbn [append path_state].
  rewrite string_of_list_ascii_of_string.
  now rewrite end_segment_plain.
Qed.

(** A path-absolute input made of kept characters goes to the path state
    as it is. *)
Lemma URL_new_path_absolute (rest base : string) :
  forallb kept (list_ascii_of_string rest) = true ->
  URL_new (String "/" rest) base
  = let parts := path_state (list_ascii_of_string rest) "" [] in
    {| origin := base; path := fst (fst parts); Url.query := snd (fst parts);
       fragment := snd parts; searchParams := [] |}.
Proof.
  intros H. unfold URL_new.
  rewrite preprocess_kept; [reflexivity|].
  cbn [list_ascii_of_string forallb]. now rewrite H.
Qed.

(** The URL of the search request, when the domain is a plain segment. *)
Lemma URL_new_posts (domain base : string) :
  plain_segment domain = true ->
  URL_new ("/teams/" ++ domain ++ "/posts") base
  = {| origin := base; path := ["teams"; domain; "posts"];
       Url.query := None; fragment := None; searchParams := [] |}.
Proof.
  intros Hd. destruct (plain_segment_chars domain Hd) as (Hchars & _ & _).
  change ("/teams/" ++ domain ++ "/posts")
    with (String "/" ("teams" ++ String "/" (domain ++ String "/" "posts"))).
  assert (E : list_ascii_of_string ("teams" ++ String "/" (domain ++ String "/" "posts"))
              = (list_ascii_of_string "teams" ++ "/"%char ::
                 (list_ascii_of_string domain ++ "/"%char ::
                  list_ascii_of_string "posts"))%list).
  { rewrite list_ascii_of_string_app. cbn [list_ascii_of_string].
    now rewrite list_ascii_of_string_app. }
  rewrite URL_new_path_absolute.
  2:{ rewrite E. rewrite forallb_app. cbn [forallb]. rewrite forallb_app.
      rewrite (forallb_plain_kept _ Hchars). reflexivity. }
  rewrite E.
  rewrite (path_state_segment "teams") by reflexivity.
  rewrite (path_state_segment domain) by assumption.
  rewrite (path_state_last "posts") by reflexivity.
  reflexivity.
Qed.

(** The URL of the detail request, when domain and id are plain segments. *)
Lemma URL_new_post (domain i base : string) :
  plain_segment domain = true -> plain_segment i = true ->
  URL_new ("/teams/" ++ domain ++ "/posts/" ++ i) base
  = {| origin := base; path := ["teams"; domain; "posts"; i];
       Url.query := None; fragment := None; searchParams := [] |}.
Proof.
  intros Hd Hi.
  destruct (plain_segment_chars domain Hd) as (Hchars & _ & _).
  destruct (plain_segment_chars i Hi) as (Hichars & _ & _).
  change ("/teams/" ++ domain ++ "/posts/" ++ i)
    with (String "/" ("teams" ++ String "/" (domain ++ String "/" ("posts" ++ String "/" i)))).
  assert (E : list_ascii_of_string
                ("teams" ++ String "/" (domain ++ String "/" ("posts" ++ String "/" i)))
              = (list_ascii_of_string "teams" ++ "/"%char ::
                 (list_ascii_of_string domain ++ "/"%char ::
                  (list_ascii_of_string "posts" ++ "/"%char ::
                   list_ascii_of_string i)))%list).
  { rewrite list_ascii_of_string_app. cbn [list_ascii_of_string].
    rewrite list_ascii_of_string_app. cbn [list_ascii_of_string].
    reflexivity. }
  rewrite URL_new_path_absolute.
  2:{ rewrite E. rewrite forallb_app. cbn [forallb]. rewrite forallb_app.
      cbn [forallb]. rewrite forallb_app. cbn [forallb].
      rewrite (forallb_plain_kept _ Hchars), (forallb_plain_kept _ Hichars).
      reflexivity. }
  rewrite E.
  rewrite (path_state_segment "teams") by reflexivity.
  rewrite (path_state_segment domain) by assumption.
  rewrite (path_state_segment "posts") by reflexivity.
  rewrite (path_state_last i) by assumption.
  reflexivity.
Qed.

(** ** Property reads and projections *)

Lemma Get_field (v : value) (k : string) :
  nullish v = false -> Get v k = inr (field v k).
Proof. destruct v; simpl; intros H; try discriminate H; reflexivity. Qed.

Lemma field_Arr_not_nullish (v : value) (k : string) (l : list value) :
  field v k = Arr l -> nullish v = false.
Proof. destruct v; simpl; intros H; try discriminate H; reflexivity. Qed.

Lemma memo_of_post_memo (post : value) :
  nullish post = false -> memo_of_post post = inr (memo post).
Proof.
  intros H. unfold memo_of_post, memo. rewrite !(Get_field _ _ H). reflexivity.
Qed.

(** A callback that completes normally on every element maps the array. *)
Lemma map_elements_total (f : value -> completion value) (g : value -> value)
      (l : list value) :
  Forall (fun x => f x = inr (g x)) l ->
  map_elements f l = inr (map g l).
Proof.
  induction 1 as [|x l Hx _ IH]; simpl; [reflexivity|].
  now rewrite Hx, IH.
Qed.

Lemma map_elements_not_nullish (f : value -> completion value) (g : value -> value)
      (l : list value) :
  (forall x, nullish x = false -> f x = inr (g x)) ->
  Forall (fun x => nullish x = false) l ->
  map_elements f l = inr (map g l).
Proof.
  intros Hf Hl. apply map_elements_total.
  eapply Forall_impl; [|exact Hl]. exact Hf.
Qed.

Lemma search_projection_shape (result : value) (posts : list value)
      (meta : list (string * value)) :
  field result "posts" = Arr posts ->
  field result "meta" = Obj meta ->
  Forall (fun post => nullish post = false) posts ->
  search_projection result
  = inr (Obj [("memos", Arr (map memo posts));
              ("total", field (Obj meta) "total");
              ("nextPage", field (Obj meta) "next_page");
              ("previousPage", field (Obj meta) "previous_page")]).
Proof.
  intros Hposts Hmeta Hall.
  pose proof (field_Arr_not_nullish _ _ _ Hposts) as Hres.
  unfold search_projection.
  rewrite !(Get_field result _ Hres), Hposts, Hmeta.
  cbn [bind Monad_either Array_map].
  rewrite (map_elements_not_nullish memo_of_post memo posts memo_of_post_memo Hall).
  reflexivity.
Qed.

Lemma detail_projection_shape (m : value) (tags groups : list value) :
  field m "tags" = Arr tags ->
  field m "groups" = Arr groups ->
  nullish (field m "user") = false ->
  Forall (fun tag => nullish tag = false) tags ->
  Forall (fun group => nullish group = false) groups ->
  detail_projection m
  = inr (Obj [("id", field m "id"); ("title", field m "title");
              ("body", field m "body"); ("url", field m "url");
              ("createdAt", field m "created_at");
              ("updatedAt", field m "updated_at");
              ("tags", Arr (map (fun tag => field tag "name") tags));
              ("user", field (field m "user") "name");
              ("groups", Arr (map (fun group => field group "name") groups))]).
Proof.
  intros Htags Hgroups Huser Hts Hgs.
  pose proof (field_Arr_not_nullish _ _ _ Htags) as Hm.
  unfold detail_projection.
  rewrite !(Get_field m _ Hm), Htags, Hgroups.
  cbn [bind Monad_either Array_map].
  rewrite (map_elements_not_nullish name_of (fun tag => field tag "name") tags
             (fun x H => Get_field x "name" H) Hts).
  rewrite (Get_field _ "name" Huser).
  rewrite (map_elements_not_nullish name_of (fun g => field g "name") groups
             (fun x H => Get_field x "name" H) Hgs).
  reflexivity.
Qed.

(** ** Status codes *)

Lemma status_digits_below_1000 :
  forallb status_digits_agree (map N.of_nat (seq 0 1000)) = true.
Proof. vm_compute. reflexivity. Qed.

(** A status code of up to three digits is written in decimal. *)
Lemma status_digits (n : N) :
  (n < 1000)%N ->
  Number_toString (of_Z (Z.of_N n)) = digits_of_Z (Z.of_N n).
Proof.
  intros H. apply String.eqb_eq.
  pose proof status_digits_below_1000 as A.
  rewrite forallb_forall in A. apply (A n).
  apply in_map_iff. exists (N.to_nat n). split; [apply Nnat.N2Nat.id|].
  apply in_seq. lia.
Qed.

(** ** Runs *)

(** The end-to-end case of the specification: the query [test] alone,
    against an upstream that finds one post. *)
Example search_end_to_end :
  searchMemos "secret" "acme" (respond 200 "OK" (inr (search_body [post7]))) search_test
  = ([ {| method := "GET";
          url := {| origin := "https://api.docbase.io";
                    path := ["teams"; "acme"; "posts"];
                    Url.query := None; fragment := None;
                    searchParams := [("q", "test"); ("page", "1"); ("per_page", "20")] |};
          headers := [("X-DocBaseToken", "secret");
                      ("Content-Type", "application/json")] |} ],
     inr {| content := [ {| type := "text"; text := search_text_post7 |} ] |}).
Proof. vm_compute. reflexivity. Qed.

Example detail_end_to_end :
  outcome (getMemoDetail "secret" "acme" (respond 200 "OK" (inr detail_body))
             {| id := "7" |})
  = inr {| content := [ {| type := "text"; text := detail_text |} ] |}.
Proof. vm_compute. reflexivity. Qed.

(** A post that is [null] makes the callback of [map] throw. *)
Example search_null_post :
  outcome (searchMemos "secret" "acme"
             (respond 200 "OK" (inr (search_body [Null]))) search_test)
  = inl (ErrorInstance
           (TypeError "Cannot read properties of null (reading 'id')")).
Proof. vm_compute. reflexivity. Qed.

(** The number constants used below are binary64 values. *)
Example sample_numbers_are_binary64 :
  forallb is_binary64
    [of_Z 1; of_Z 20; of_Z 100; of_Z 500; of_Z (-3); of_Z 0; two_and_a_half]
  = true.
Proof. vm_compute. reflexivity. Qed.

(** [perPage] at the limit, at zero, [NaN] and [Infinity]. *)
Example limitedPerPage_edges :
  map (fun v => Number_toString (default_to (of_Z 20) (limitedPerPage (Some v))))
      [of_Z 100; of_Z 101; S754_zero false; S754_nan; S754_infinity false;
       of_Z (-5)]
  = ["100"; "100"; "0"; "NaN"; "100"; "-5"].
Proof. vm_compute. reflexivity. Qed.

(** What the URL parser makes of some ids. *)
Example detail_urls :
  map (fun i => let u := url (getMemoDetail_request "secret" "acme" {| id := i |}) in
                (pathname u, Url.query u, fragment u))
      ["7"; "1?x=1"; "../../x"; "a b#c"; ""]
  = [("/teams/acme/posts/7", None, None);
     ("/teams/acme/posts/1", Some "x=1", None);
     ("/teams/x", None, None);
     ("/teams/acme/posts/a%20b", None, Some "c");
     ("/teams/acme/posts/", None, None)].
Proof. vm_compute. reflexivity. Qed.

(** Of two shortest decimals equally near, the even one is printed. *)
Example toString_tie_takes_the_even_digit :
  is_binary64 midway_number = true /\
  Number_toString midway_number = "8.000015258789062".
Proof. vm_compute. split; reflexivity. Qed.

(** A caret in an id stays as it is. *)
Example detail_url_with_caret :
  pathname (url (getMemoDetail_request "secret" "acme" {| id := "a^b" |}))
  = "/teams/acme/posts/a^b".
Proof. vm_compute. reflexivity. Qed.

(** With both variables set the server is built and connected. *)
Example load_with_both_variables :
  Startup.load (env_of (Some "secret") (Some "acme")) (inr tt)
  = [ Startup.new_McpServer "docbase-mcp" "1.0.0";
      Startup.server_tool "searchMemos";
      Startup.server_tool "getMemoDetail";
      Startup.new_StdioServerTransport;
      Startup.server_connect;
      Startup.console_info "Docbase MCP Server running on stdin/stdout" ].
Proof. reflexivity. Qed.

(** An empty token counts as missing; the token is checked first. *)
Example load_with_empty_token :
  Startup.load (env_of (Some "") None) (inr tt)
  = [ Startup.console_error Startup.TOKEN_MISSING; Startup.process_exit 1 ].
Proof. reflexivity. Qed.

(** ** [JSON.stringify] with an indent of two is pretty-printing by depth *)

(** Induction over values, through arrays and objects. *)
Lemma value_nested_ind (P : value -> Prop) :
  P Undefined -> P Null -> (forall b, P (Bool b)) -> (forall n, P (Num n)) ->
  (forall s, P (Str s)) ->
  (forall elems, Forall P elems -> P (Arr elems)) ->
  (forall props, Forall (fun kx => P (snd kx)) props -> P (Obj props)) ->
  forall v, P v.
Proof.
  intros HU HN HB HNum HS HA HO.
  fix IH 1. intros [ | | b | n | s | elems | props].
  - exact HU.
  - exact HN.
  - apply HB.
  - apply HNum.
  - apply HS.
  - apply HA. induction elems as [|x elems IHe]; constructor; [apply IH | exact IHe].
  - apply HO. induction props as [|[k x] props IHp]; constructor;
      [apply IH | exact IHp].
Qed.

Lemma repeat_string_add (s : string) (a b : nat) :
  repeat_string s (a + b) = repeat_string s a ++ repeat_string s b.
Proof.
  induction a as [|a IH]; cbn [Nat.add repeat_string append]; [reflexivity|].
  now rewrite IH, string_append_assoc.
Qed.

Lemma spaces_step (depth : nat) : spaces (2 * depth) ++ gap = spaces (2 * S depth).
Proof.
  unfold spaces. replace (2 * S depth)%nat with (2 * depth + 2)%nat by lia.
  now rewrite repeat_string_add.
Qed.

(** Indenting once and separating by comma, newline and indentation is
    indenting every part and separating by comma and newline. *)
Lemma join_indented (indent : string) (parts : list string) :
  parts <> [] ->
  indent ++ join ("," ++ newline ++ indent) parts
  = join ("," ++ newline) (map (fun t => indent ++ t) parts).
Proof.
  induction parts as [|x parts IH]; [congruence|]. intros _.
  destruct parts as [|y parts]; [reflexivity|].
  change (join ("," ++ newline ++ indent) (x :: y :: parts))
    with (x ++ ("," ++ newline ++ indent) ++ join ("," ++ newline ++ indent) (y :: parts)).
  change (join ("," ++ newline) (map (fun t => indent ++ t) (x :: y :: parts)))
    with ((indent ++ x) ++ ("," ++ newline)
            ++ join ("," ++ newline) (map (fun t => indent ++ t) (y :: parts))).
  rewrite <- IH by discriminate.
  rewrite !string_append_assoc. reflexivity.
Qed.

Lemma wrap_bracket (opening closing : string) (depth : nat) (parts : list string) :
  match parts with
  | [] => opening ++ closing
  | _ => wrap opening closing (spaces (2 * depth)) (spaces (2 * depth) ++ gap) parts
  end
  = bracket opening closing depth parts.
Proof.
  destruct parts as [|x parts]; [reflexivity|].
  unfold wrap, bracket. rewrite spaces_step.
  rewrite <- (join_indented (spaces (2 * S depth)) (x :: parts)) by discriminate.
  now rewrite !string_append_assoc.
Qed.

(** The serialiser of [JSON.stringify], started behind [2 * depth] spaces,
    writes what [pretty depth] writes. *)
Lemma SerializeJSONProperty_pretty (v : value) :
  forall depth : nat,
    SerializeJSONProperty (spaces (2 * depth)) v = pretty depth v.
Proof.
  induction v as [ | | b | n | s | elems IH | props IH] using value_nested_ind;
    intros depth; try reflexivity.
  - destruct b; reflexivity.
  - cbn [SerializeJSONProperty pretty].
    match goal with
    | |- Some (match ?f elems with _ => _ end) = _ =>
        assert (E : f elems
                    = map (fun x => match pretty (S depth) x with
                                    | Some t => t
                                    | None => "null"
                                    end) elems)
    end.
    { induction IH as [|x elems Hx _ IHe]; [reflexivity|].
      cbn [map]. cbn beta iota fix. rewrite IHe, spaces_step, (Hx (S depth)).
      reflexivity. }
    rewrite E. f_equal. rewrite <- wrap_bracket.
    destruct (map _ elems); [reflexivity|].
    unfold wrap. now rewrite !string_append_assoc.
  - cbn [SerializeJSONProperty pretty].
    match goal with
    | |- Some (match ?f props with _ => _ end) = _ =>
        assert (E : f props
                    = flat_map (fun kx => match pretty (S depth) (snd kx) with
                                          | Some t => [QuoteJSONString (fst kx) ++ ": " ++ t]
                                          | None => []
                                          end) props)
    end.
    { induction IH as [|[k x] props Hx _ IHp]; [reflexivity|].
      cbn [flat_map fst snd]. cbn beta iota fix. cbn [snd] in Hx.
      rewrite IHp, spaces_step, (Hx (S depth)).
      destruct (pretty (S depth) x); reflexivity. }
    rewrite E. f_equal. rewrite <- wrap_bracket.
    destruct (flat_map _ props); [reflexivity|].
    unfold wrap. now rewrite !string_append_assoc.
Qed.

(** [JSON.stringify(v, null, 2)] is the pretty-printed text of [v]. *)
Lemma JSON_stringify_pretty (v : value) (t : string) :
  pretty 0 v = Some t -> JSON_stringify v = t.
Proof.
  intros H. unfold JSON_stringify.
  change "" with (spaces (2 * 0)). now rewrite SerializeJSONProperty_pretty, H.
Qed.

Lemma pretty_of_object (depth : nat) (props : list (string * value)) :
  exists t, pretty depth (Obj props) = Some t.
Proof. eexists. reflexivity. Qed.

Ltac step_projection :=
  repeat match goal with
         | |- context [match ?c with inl _ => _ | inr _ => _ end] =>
             destruct c; cbn [bind Monad_either]; try discriminate
         end.

(** What a projection yields is an object, so it has a text. *)
Lemma search_projection_pretty (result projected : value) :
  search_projection result = inr projected ->
  exists t, pretty 0 projected = Some t.
Proof.
  unfold search_projection. cbn [bind Monad_either]. step_projection.
  cbn [ret]. intros H. injection H as <-. apply pretty_of_object.
Qed.

Lemma detail_projection_pretty (m projected : value) :
  detail_projection m = inr projected ->
  exists t, pretty 0 projected = Some t.
Proof.
  unfold detail_projection. cbn [bind Monad_either]. step_projection.
  cbn [ret]. intros H. injection H as <-. apply pretty_of_object.
Qed.

(* ===================================================================== *)
(** * The claims                                                          *)
(* ===================================================================== *)

(** ** C1 *)

(** C1, as stated, fails where [perPage] is absent: the absence is not
    what goes upstream, the request carries [per_page=20]. *)
Lemma absent_perPage_is_not_sent_absent :
  ~ (forall (token domain : string) (fetch : Request -> completion Response)
            (params : SearchMemosParams) (r : Request),
       requests (searchMemos token domain fetch params) = [r] ->
       perPage params = None ->
       param "per_page" (searchParams (url r)) = None).
Proof.
  intros H.
  specialize (H "secret" "acme" (respond 200 "OK" (inr (search_body [post7])))
                search_test
                (searchMemos_request "secret" "acme" search_test)
                eq_refl eq_refl).
  vm_compute in H. discriminate H.
Qed.

(** C1, amended.  The search tool makes one request.  When [perPage] is
    given and greater than 100, the request carries [per_page=100]; when it
    is given and at most 100, the request carries [perPage] itself; when it
    is absent, the handler hands the absence on to the client, whose
    default makes the request carry [per_page=20]. *)
Theorem perPage_above_100_is_sent_as_100 :
  forall (token domain : string) (fetch : Request -> completion Response)
         (params : SearchMemosParams),
  exists r : Request,
    requests (searchMemos token domain fetch params) = [r] /\
    (forall v, perPage params = Some v -> gt v (of_Z 100) = true ->
       param "per_page" (searchParams (url r)) = Some "100") /\
    (forall v, perPage params = Some v -> le v (of_Z 100) = true ->
       param "per_page" (searchParams (url r)) = Some (Number_toString v)) /\
    (perPage params = None ->
       limitedPerPage (perPage params) = None /\
       param "per_page" (searchParams (url r)) = Some "20").
Proof.
  intros token domain fetch params.
  exists (searchMemos_request token domain params).
  rewrite searchMemos_eq. split; [reflexivity|].
  rewrite searchMemos_request_params. cbn [param String.eqb Ascii.eqb Bool.eqb].
  repeat split.
  - intros v Hv Hgt. rewrite Hv, limitedPerPage_Some, Hgt. cbn.
    now rewrite toString_100.
  - intros v Hv Hle. rewrite Hv, limitedPerPage_Some, (le_not_gt _ _ Hle).
    reflexivity.
  - now rewrite H.
  - rewrite H. cbn. now rewrite toString_20.
Qed.

(** [perPage = 500] goes out as 100, [perPage = 2.5] as 2.5, and no
    [perPage] as 20. *)
Lemma perPage_above_100_witness :
  (exists r : Request,
     requests (searchMemos "secret" "acme" (respond 200 "OK" (inr (search_body [post7])))
                 {| query := "test"; page := None; perPage := Some (of_Z 500) |}) = [r] /\
     param "per_page" (searchParams (url r)) = Some "100") /\
  (exists r : Request,
     requests (searchMemos "secret" "acme" (respond 200 "OK" (inr (search_body [post7])))
                 {| query := "test"; page := None; perPage := Some two_and_a_half |}) = [r] /\
     param "per_page" (searchParams (url r)) = Some "2.5") /\
  (exists r : Request,
     requests (searchMemos "secret" "acme" (respond 200 "OK" (inr (search_body [post7])))
                 search_test) = [r] /\
     param "per_page" (searchParams (url r)) = Some "20").
Proof.
  split; [|split].
  - destruct (perPage_above_100_is_sent_as_100 "secret" "acme"
                (respond 200 "OK" (inr (search_body [post7])))
                {| query := "test"; page := None; perPage := Some (of_Z 500) |})
      as (r & Hr & Hgt & _).
    exists r. split; [exact Hr|]. apply (Hgt (of_Z 500)); reflexivity.
  - destruct (perPage_above_100_is_sent_as_100 "secret" "acme"
                (respond 200 "OK" (inr (search_body [post7])))
                {| query := "test"; page := None; perPage := Some two_and_a_half |})
      as (r & Hr & _ & Hle & _).
    exists r. split; [exact Hr|].
    rewrite (Hle two_and_a_half); reflexivity.
  - destruct (perPage_above_100_is_sent_as_100 "secret" "acme"
                (respond 200 "OK" (inr (search_body [post7]))) search_test)
      as (r & Hr & _ & _ & Habsent).
    exists r. split; [exact Hr|]. exact (proj2 (Habsent eq_refl)).
Defined.

(** ** C2 *)

(** C2.  When the upstream answers the search request with a 2xx response
    whose body has a [posts] array of N posts (values that are not [null])
    and a [meta] object holding [total], [next_page] and [previous_page],
    the tool returns the serialisation of an object whose [memos] are the
    N objects [{id, title, url}] read off the posts, in the order of the
    posts, and whose [total], [nextPage] and [previousPage] are the three
    values of [meta]. *)
Theorem search_result_lists_the_posts :
  forall (token domain : string) (fetch : Request -> completion Response)
         (params : SearchMemosParams) (response : Response) (result : value)
         (posts : list value) (meta : list (string * value))
         (total next_page previous_page : value),
    fetch (searchMemos_request token domain params) = inr response ->
    ok response = true ->
    json response = inr result ->
    field result "posts" = Arr posts ->
    Forall (fun post => nullish post = false) posts ->
    field result "meta" = Obj meta ->
    lookup "total" meta = Some total ->
    lookup "next_page" meta = Some next_page ->
    lookup "previous_page" meta = Some previous_page ->
    exists memos : list value,
      outcome (searchMemos token domain fetch params)
      = inr (text_result (Obj [("memos", Arr memos); ("total", total);
                               ("nextPage", next_page);
                               ("previousPage", previous_page)])) /\
      List.length memos = List.length posts /\
      (forall (i : nat) (post : value),
         nth_error posts i = Some post ->
         nth_error memos i
         = Some (Obj [("id", field post "id"); ("title", field post "title");
                      ("url", field post "url")])).
Proof.
  intros token domain fetch params response result posts meta total next_page
         previous_page Hfetch Hok Hjson Hposts Hall Hmeta Htotal Hnext Hprev.
  exists (map memo posts). split; [|split].
  - rewrite searchMemos_eq. unfold outcome, search_outcome. cbn [snd].
    rewrite Hfetch, Hok, Hjson.
    rewrite (search_projection_shape result posts meta Hposts Hmeta Hall).
    cbn [field]. now rewrite Htotal, Hnext, Hprev.
  - apply length_map.
  - intros i post Hi. rewrite nth_error_map, Hi. reflexivity.
Qed.

(** Two posts in, the same two memos out. *)
Lemma search_result_witness :
  exists memos : list value,
    outcome (searchMemos "secret" "acme"
               (respond 200 "OK" (inr (search_body [post7; post8]))) search_test)
    = inr (text_result
             (Obj [("memos", Arr memos); ("total", Num (of_Z 42));
                   ("nextPage", Str "https://api.docbase.io/teams/acme/posts?page=2");
                   ("previousPage", Null)])) /\
    List.length memos = 2%nat /\
    nth_error memos 1
    = Some (Obj [("id", Num (of_Z 8)); ("title", Str "Roadmap");
                 ("url", Str "https://acme.docbase.io/posts/8")]).
Proof.
  assert (Hall : Forall (fun post => nullish post = false) [post7; post8])
    by (repeat constructor).
  destruct (search_result_lists_the_posts "secret" "acme"
              (respond 200 "OK" (inr (search_body [post7; post8]))) search_test
              {| status := 200; statusText := "OK";
                 json := inr (search_body [post7; post8]) |}
              (search_body [post7; post8]) [post7; post8]
              [("previous_page", Null);
               ("next_page", Str "https://api.docbase.io/teams/acme/posts?page=2");
               ("total", Num (of_Z 42))]
              (Num (of_Z 42))
              (Str "https://api.docbase.io/teams/acme/posts?page=2") Null
              eq_refl eq_refl eq_refl eq_refl Hall
              eq_refl eq_refl eq_refl eq_refl)
    as (memos & Hout & Hlen & Hnth).
  exists memos. split; [exact Hout|]. split; [exact Hlen|].
  exact (Hnth 1%nat post8 eq_refl).
Defined.

(** ** C3 *)

(** C3.  When the upstream answers the detail request with a 2xx response
    whose body has [tags] and [groups] arrays of objects and a [user]
    object, the tool returns the serialisation of the object holding [id],
    [title], [body], [url], [createdAt] (from [created_at]), [updatedAt]
    (from [updated_at]), the [name] of every tag in order, the [name] of
    the user, and the [name] of every group in order. *)
Theorem detail_result_flattens_names :
  forall (token domain : string) (fetch : Request -> completion Response)
         (params : GetMemoDetailParams) (response : Response) (m : value)
         (tags groups : list value),
    fetch (getMemoDetail_request token domain params) = inr response ->
    ok response = true ->
    json response = inr m ->
    field m "tags" = Arr tags ->
    Forall (fun tag => nullish tag = false) tags ->
    field m "groups" = Arr groups ->
    Forall (fun group => nullish group = false) groups ->
    nullish (field m "user") = false ->
    outcome (getMemoDetail token domain fetch params)
    = inr (text_result
        (Obj [("id", field m "id"); ("title", field m "title");
              ("body", field m "body"); ("url", field m "url");
              ("createdAt", field m "created_at");
              ("updatedAt", field m "updated_at");
              ("tags", Arr (map (fun tag => field tag "name") tags));
              ("user", field (field m "user") "name");
              ("groups", Arr (map (fun group => field group "name") groups))])).
Proof.
  intros token domain fetch params response m tags groups
         Hfetch Hok Hjson Htags Hts Hgroups Hgs Huser.
  rewrite getMemoDetail_eq. unfold outcome, detail_outcome. cbn [snd].
  rewrite Hfetch, Hok, Hjson.
  now rewrite (detail_projection_shape m tags groups Htags Hgroups Huser Hts Hgs).
Qed.

(** The record of the specification: tags a and b, group g, user u. *)
Lemma detail_result_witness :
  outcome (getMemoDetail "secret" "acme" (respond 200 "OK" (inr detail_body))
             {| id := "7" |})
  = inr (text_result
      (Obj [("id", Num (of_Z 7)); ("title", Str "Release notes");
            ("body", Str "# 1.0"); ("url", Str "https://acme.docbase.io/posts/7");
            ("createdAt", Str "2024-01-01T00:00:00+09:00");
            ("updatedAt", Str "2024-01-02T00:00:00+09:00");
            ("tags", Arr [Str "a"; Str "b"]);
            ("user", Str "u");
            ("groups", Arr [Str "g"])])).
Proof.
  assert (Hts : Forall (fun tag => nullish tag = false)
                  [Obj [("name", Str "a")]; Obj [("name", Str "b")]])
    by (repeat constructor).
  assert (Hgs : Forall (fun group => nullish group = false)
                  [Obj [("id", Num (of_Z 1)); ("name", Str "g")]])
    by (repeat constructor).
  exact (detail_result_flattens_names "secret" "acme"
           (respond 200 "OK" (inr detail_body)) {| id := "7" |}
           {| status := 200; statusText := "OK"; json := inr detail_body |}
           detail_body
           [Obj [("name", Str "a")]; Obj [("name", Str "b")]]
           [Obj [("id", Num (of_Z 1)); ("name", Str "g")]]
           eq_refl eq_refl eq_refl eq_refl Hts eq_refl Hgs eq_refl).
Defined.

(** ** C4 *)

(** C4.  When the upstream answers either request with a status outside
    200..299, the tool fails with the error whose message is the fixed
    prefix followed by the status code, a space and the status text,
    whatever the body of the response is; nothing is returned. *)
Theorem non_2xx_response_fails_the_tool :
  forall (token domain : string) (fetch : Request -> completion Response)
         (response : Response),
    ok response = false ->
    (forall params : SearchMemosParams,
       fetch (searchMemos_request token domain params) = inr response ->
       outcome (searchMemos token domain fetch params)
       = inl (ErrorInstance (Error_new
           (API_ERROR_PREFIX
              ++ Number_toString (of_Z (Z.of_N (status response)))
              ++ " " ++ statusText response)))) /\
    (forall params : GetMemoDetailParams,
       fetch (getMemoDetail_request token domain params) = inr response ->
       outcome (getMemoDetail token domain fetch params)
       = inl (ErrorInstance (Error_new
           (API_ERROR_PREFIX
              ++ Number_toString (of_Z (Z.of_N (status response)))
              ++ " " ++ statusText response)))).
Proof.
  intros token domain fetch response Hok. split; intros params Hfetch.
  - rewrite searchMemos_eq. unfold outcome, search_outcome. cbn [snd].
    now rewrite Hfetch, Hok.
  - rewrite getMemoDetail_eq. unfold outcome, detail_outcome. cbn [snd].
    now rewrite Hfetch, Hok.
Qed.

(** A 404 with a well-formed body fails both tools with code and text. *)
Lemma non_2xx_response_witness :
  outcome (searchMemos "secret" "acme"
             (respond 404 "Not Found" (inr (search_body [post7]))) search_test)
  = inl (ErrorInstance (Error_new (API_ERROR_PREFIX ++ "404 Not Found"))) /\
  outcome (getMemoDetail "secret" "acme"
             (respond 404 "Not Found" (inr detail_body)) {| id := "7" |})
  = inl (ErrorInstance (Error_new (API_ERROR_PREFIX ++ "404 Not Found"))).
Proof.
  split.
  - exact (proj1 (non_2xx_response_fails_the_tool "secret" "acme"
                    (respond 404 "Not Found" (inr (search_body [post7])))
                    {| status := 404; statusText := "Not Found";
                       json := inr (search_body [post7]) |} eq_refl)
                 search_test eq_refl).
  - exact (proj2 (non_2xx_response_fails_the_tool "secret" "acme"
                    (respond 404 "Not Found" (inr detail_body))
                    {| status := 404; statusText := "Not Found";
                       json := inr detail_body |} eq_refl)
                 {| id := "7" |} eq_refl).
Defined.

(** ** C5 *)

(** C5.  When [DOCBASE_TOKEN] or [DOCBASE_DOMAIN] is unset or empty,
    loading the module prints one diagnostic and exits with status 1; the
    server is neither constructed nor connected. *)
Theorem missing_variable_exits_with_1 :
  forall (env : Startup.environment) (connect : completion unit),
    Startup.not_ (env "DOCBASE_TOKEN") = true \/
    Startup.not_ (env "DOCBASE_DOMAIN") = true ->
    (exists diagnostic : string,
       Startup.load env connect
       = [Startup.console_error diagnostic; Startup.process_exit 1]) /\
    existsb Startup.is_new_McpServer (Startup.load env connect) = false /\
    existsb Startup.is_server_connect (Startup.load env connect) = false.
Proof.
  intros env connect H. unfold Startup.load.
  destruct (Startup.not_ (env "DOCBASE_TOKEN")) eqn:Ht.
  - split; [eexists; reflexivity | split; reflexivity].
  - destruct H as [H|H]; [discriminate H|]. rewrite H.
    split; [eexists; reflexivity | split; reflexivity].
Qed.

(** No domain: the run is the domain diagnostic and [exit(1)]. *)
Lemma missing_variable_witness :
  (exists diagnostic : string,
     Startup.load (env_of (Some "secret") None) (inr tt)
     = [Startup.console_error diagnostic; Startup.process_exit 1]) /\
  existsb Startup.is_new_McpServer
    (Startup.load (env_of (Some "secret") None) (inr tt)) = false /\
  existsb Startup.is_server_connect
    (Startup.load (env_of (Some "secret") None) (inr tt)) = false.
Proof.
  exact (missing_variable_exits_with_1 (env_of (Some "secret") None) (inr tt)
           (or_intror eq_refl)).
Defined.

(** ** C6 *)

(** C6, as stated, fails: an id is put into the string handed to
    [new URL] as it is, so the id [1?x=1] yields a request whose path ends
    in [/posts/1] and whose query is [x=1]. *)
Lemma detail_request_of_id_with_question_mark :
  ~ (forall (token domain : string) (fetch : Request -> completion Response)
            (params : GetMemoDetailParams) (r : Request),
       requests (getMemoDetail token domain fetch params) = [r] ->
       method r = "GET" /\
       pathname (url r) = "/teams/" ++ domain ++ "/posts/" ++ id params /\
       Url.query (url r) = None /\
       searchParams (url r) = [] /\
       param "X-DocBaseToken" (headers r) = Some token).
Proof.
  intros H.
  destruct (H "secret" "acme" (respond 200 "OK" (inr detail_body))
              {| id := "1?x=1" |}
              (getMemoDetail_request "secret" "acme" {| id := "1?x=1" |})
              eq_refl)
    as (_ & _ & Hquery & _).
  vm_compute in Hquery. discriminate Hquery.
Qed.

(** C6, amended.  When the configured domain is a plain segment, every
    search request is a GET whose path is [/teams/{domain}/posts], whose
    URL has no query or fragment of its own and whose appended parameters
    are exactly [q], [page] and [per_page]; when the id is a plain segment
    too, every detail request is a GET whose path is
    [/teams/{domain}/posts/{id}], with no query, no fragment and no
    appended parameter.  Both carry the token in the [X-DocBaseToken]
    header. *)
Theorem requests_for_plain_domain_and_id :
  forall (token domain : string) (fetch : Request -> completion Response),
    plain_segment domain = true ->
    (forall params : SearchMemosParams,
       exists r : Request,
         requests (searchMemos token domain fetch params) = [r] /\
         method r = "GET" /\
         pathname (url r) = "/teams/" ++ domain ++ "/posts" /\
         Url.query (url r) = None /\
         fragment (url r) = None /\
         map fst (searchParams (url r)) = ["q"; "page"; "per_page"] /\
         param "X-DocBaseToken" (headers r) = Some token) /\
    (forall params : GetMemoDetailParams,
       plain_segment (id params) = true ->
       exists r : Request,
         requests (getMemoDetail token domain fetch params) = [r] /\
         method r = "GET" /\
         pathname (url r) = "/teams/" ++ domain ++ "/posts/" ++ id params /\
         Url.query (url r) = None /\
         fragment (url r) = None /\
         searchParams (url r) = [] /\
         param "X-DocBaseToken" (headers r) = Some token).
Proof.
  intros token domain fetch Hd. split.
  - intros params. exists (searchMemos_request token domain params).
    rewrite searchMemos_eq. split; [reflexivity|].
    unfold searchMemos_request, searchMemos_url, pathname.
    cbn [method url headers path Url.query fragment searchParams].
    rewrite (URL_new_posts domain BASE_URL Hd).
    repeat split.
  - intros params Hi. exists (getMemoDetail_request token domain params).
    rewrite getMemoDetail_eq. split; [reflexivity|].
    unfold getMemoDetail_request, pathname.
    cbn [method url headers].
    rewrite (URL_new_post domain (id params) BASE_URL Hd Hi).
    repeat split.
Qed.

(** The domain [acme] and the id [7]. *)
Lemma requests_for_plain_witness :
  (exists r : Request,
     requests (searchMemos "secret" "acme"
                 (respond 200 "OK" (inr (search_body [post7]))) search_test) = [r] /\
     method r = "GET" /\
     pathname (url r) = "/teams/acme/posts" /\
     Url.query (url r) = None /\
     fragment (url r) = None /\
     map fst (searchParams (url r)) = ["q"; "page"; "per_page"] /\
     param "X-DocBaseToken" (headers r) = Some "secret") /\
  (exists r : Request,
     requests (getMemoDetail "secret" "acme"
                 (respond 200 "OK" (inr detail_body)) {| id := "7" |}) = [r] /\
     method r = "GET" /\
     pathname (url r) = "/teams/acme/posts/7" /\
     Url.query (url r) = None /\
     fragment (url r) = None /\
     searchParams (url r) = [] /\
     param "X-DocBaseToken" (headers r) = Some "secret").
Proof.
  split.
  - exact (proj1 (requests_for_plain_domain_and_id "secret" "acme"
                    (respond 200 "OK" (inr (search_body [post7]))) eq_refl)
                 search_test).
  - exact (proj2 (requests_for_plain_domain_and_id "secret" "acme"
                    (respond 200 "OK" (inr detail_body)) eq_refl)
                 {| id := "7" |} eq_refl).
Defined.

(** ** C7 *)

(** C7.  Whatever the [try] block of either handler throws, the handler
    throws in turn: the same value when it is an instance of [Error], and
    a new [Error] with the fixed message when it is not. *)
Theorem non_Error_throwable_becomes_unknown_error :
  forall (token domain : string) (fetch : Request -> completion Response)
         (t : thrown),
    (forall params : SearchMemosParams,
       outcome (searchMemos_body token domain fetch params) = inl t ->
       (instanceof_Error t = false ->
        outcome (searchMemos token domain fetch params)
        = inl (ErrorInstance (Error_new UNKNOWN_ERROR))) /\
       (instanceof_Error t = true ->
        outcome (searchMemos token domain fetch params) = inl t)) /\
    (forall params : GetMemoDetailParams,
       outcome (getMemoDetail_body token domain fetch params) = inl t ->
       (instanceof_Error t = false ->
        outcome (getMemoDetail token domain fetch params)
        = inl (ErrorInstance (Error_new UNKNOWN_ERROR))) /\
       (instanceof_Error t = true ->
        outcome (getMemoDetail token domain fetch params) = inl t)).
Proof.
  intros token domain fetch t. split; intros params Hbody.
  - unfold searchMemos, try_rethrow.
    destruct (searchMemos_body token domain fetch params) as [l [t'|a]];
      cbn in Hbody; [|discriminate Hbody].
    injection Hbody as ->. cbn. unfold rethrow.
    split; intros Ht; rewrite Ht; reflexivity.
  - unfold getMemoDetail, try_rethrow.
    destruct (getMemoDetail_body token domain fetch params) as [l [t'|a]];
      cbn in Hbody; [|discriminate Hbody].
    injection Hbody as ->. cbn. unfold rethrow.
    split; intros Ht; rewrite Ht; reflexivity.
Qed.

(** A [fetch] that rejects with the string [boom], and a [response.json()]
    that rejects with a [SyntaxError]. *)
Lemma non_Error_throwable_witness :
  outcome (searchMemos "secret" "acme" (reject (NonError (Str "boom"))) search_test)
  = inl (ErrorInstance (Error_new UNKNOWN_ERROR)) /\
  outcome (getMemoDetail "secret" "acme"
             (respond 200 "OK"
                (inl (ErrorInstance (HostError "SyntaxError" "Unexpected end of JSON input"))))
             {| id := "7" |})
  = inl (ErrorInstance (HostError "SyntaxError" "Unexpected end of JSON input")).
Proof.
  split.
  - exact (proj1 (proj1 (non_Error_throwable_becomes_unknown_error "secret" "acme"
                           (reject (NonError (Str "boom"))) (NonError (Str "boom")))
                        search_test eq_refl) eq_refl).
  - exact (proj2 (proj2 (non_Error_throwable_becomes_unknown_error "secret" "acme"
                           (respond 200 "OK"
                              (inl (ErrorInstance
                                 (HostError "SyntaxError" "Unexpected end of JSON input"))))
                           (ErrorInstance
                              (HostError "SyntaxError" "Unexpected end of JSON input")))
                        {| id := "7" |} eq_refl) eq_refl).
Defined.

(** ** C8 *)

(** C8.  When either tool completes normally, its result is one content
    block of type [text], and the text is the pretty-printed JSON, two
    spaces per nesting level, of the object projected from the body of the
    2xx response. *)
Theorem success_is_one_text_block :
  forall (token domain : string) (fetch : Request -> completion Response)
         (result : CallToolResult),
    (forall params : SearchMemosParams,
       outcome (searchMemos token domain fetch params) = inr result ->
       exists (response : Response) (body projected : value) (t : string),
         fetch (searchMemos_request token domain params) = inr response /\
         ok response = true /\
         json response = inr body /\
         search_projection body = inr projected /\
         pretty 0 projected = Some t /\
         content result = [ {| type := "text"; text := t |} ]) /\
    (forall params : GetMemoDetailParams,
       outcome (getMemoDetail token domain fetch params) = inr result ->
       exists (response : Response) (body projected : value) (t : string),
         fetch (getMemoDetail_request token domain params) = inr response /\
         ok response = true /\
         json response = inr body /\
         detail_projection body = inr projected /\
         pretty 0 projected = Some t /\
         content result = [ {| type := "text"; text := t |} ]).
Proof.
  intros token domain fetch result. split; intros params.
  - rewrite searchMemos_eq. unfold outcome, search_outcome. cbn [snd].
    destruct (fetch _) as [t|response]; [discriminate|].
    destruct (ok response) eqn:Hok; [|discriminate].
    destruct (json response) as [t|body] eqn:Hjson; [discriminate|].
    destruct (search_projection body) as [t|projected] eqn:Hproj; [discriminate|].
    intros H. injection H as <-.
    destruct (search_projection_pretty body projected Hproj) as [t Ht].
    exists response, body, projected, t. repeat split; try assumption.
    unfold text_result. cbn [content]. now rewrite (JSON_stringify_pretty _ _ Ht).
  - rewrite getMemoDetail_eq. unfold outcome, detail_outcome. cbn [snd].
    destruct (fetch _) as [t|response]; [discriminate|].
    destruct (ok response) eqn:Hok; [|discriminate].
    destruct (json response) as [t|body] eqn:Hjson; [discriminate|].
    destruct (detail_projection body) as [t|projected] eqn:Hproj; [discriminate|].
    intros H. injection H as <-.
    destruct (detail_projection_pretty body projected Hproj) as [t Ht].
    exists response, body, projected, t. repeat split; try assumption.
    unfold text_result. cbn [content]. now rewrite (JSON_stringify_pretty _ _ Ht).
Qed.

(** One post found, and the memo of the samples: the texts, line by line. *)
Lemma success_witness :
  (outcome (searchMemos "secret" "acme"
              (respond 200 "OK" (inr (search_body [post7]))) search_test)
   = inr {| content := [ {| type := "text"; text := search_text_post7 |} ] |} /\
   exists projected : value,
     search_projection (search_body [post7]) = inr projected /\
     pretty 0 projected = Some search_text_post7) /\
  (outcome (getMemoDetail "secret" "acme"
              (respond 200 "OK" (inr detail_body)) {| id := "7" |})
   = inr {| content := [ {| type := "text"; text := detail_text |} ] |} /\
   exists projected : value,
     detail_projection detail_body = inr projected /\
     pretty 0 projected = Some detail_text).
Proof.
  split.
  - assert (Hrun : outcome (searchMemos "secret" "acme"
                     (respond 200 "OK" (inr (search_body [post7]))) search_test)
                   = inr {| content := [ {| type := "text";
                                            text := search_text_post7 |} ] |})
      by (vm_compute; reflexivity).
    split; [exact Hrun|].
    destruct (proj1 (success_is_one_text_block "secret" "acme"
                       (respond 200 "OK" (inr (search_body [post7])))
                       {| content := [ {| type := "text";
                                          text := search_text_post7 |} ] |})
                    search_test Hrun)
      as (response & body & projected & t & Hfetch & _ & Hjson & Hproj & Ht & Hc).
    injection Hfetch as <-. injection Hjson as <-.
    injection Hc as <-. exists projected. split; assumption.
  - assert (Hrun : outcome (getMemoDetail "secret" "acme"
                     (respond 200 "OK" (inr detail_body)) {| id := "7" |})
                   = inr {| content := [ {| type := "text"; text := detail_text |} ] |})
      by (vm_compute; reflexivity).
    split; [exact Hrun|].
    destruct (proj2 (success_is_one_text_block "secret" "acme"
                       (respond 200 "OK" (inr detail_body))
                       {| content := [ {| type := "text"; text := detail_text |} ] |})
                    {| id := "7" |} Hrun)
      as (response & body & projected & t & Hfetch & _ & Hjson & Hproj & Ht & Hc).
    injection Hfetch as <-. injection Hjson as <-.
    injection Hc as <-. exists projected. split; assumption.
Defined.

(** ** C9 *)

(** C9.  Whatever number [page] is, the search request carries its
    decimal form as [page]; whatever string [id] is, the detail tool makes
    its request, to the URL parsed from the path with the id put in as it
    is. *)
Theorem page_and_id_are_not_validated :
  forall (token domain : string) (fetch : Request -> completion Response),
    (forall (params : SearchMemosParams) (v : number),
       page params = Some v ->
       exists r : Request,
         requests (searchMemos token domain fetch params) = [r] /\
         param "page" (searchParams (url r)) = Some (Number_toString v)) /\
    (forall params : GetMemoDetailParams,
       exists r : Request,
         requests (getMemoDetail token domain fetch params) = [r] /\
         url r = URL_new ("/teams/" ++ domain ++ "/posts/" ++ id params) BASE_URL).
Proof.
  intros token domain fetch. split.
  - intros params v Hv. exists (searchMemos_request token domain params).
    rewrite searchMemos_eq. split; [reflexivity|].
    rewrite searchMemos_request_params. cbn [param String.eqb Ascii.eqb Bool.eqb].
    now rewrite Hv.
  - intros params. exists (getMemoDetail_request token domain params).
    rewrite getMemoDetail_eq. split; reflexivity.
Qed.

(** Page 0, page -3 and page 2.5 go out as they are. *)
Lemma page_and_id_witness :
  (exists r : Request,
     requests (searchMemos "secret" "acme" (reject (NonError Null))
                 {| query := "test"; page := Some (of_Z 0); perPage := None |}) = [r] /\
     param "page" (searchParams (url r)) = Some "0") /\
  (exists r : Request,
     requests (searchMemos "secret" "acme" (reject (NonError Null))
                 {| query := "test"; page := Some (of_Z (-3)); perPage := None |}) = [r] /\
     param "page" (searchParams (url r)) = Some "-3") /\
  (exists r : Request,
     requests (searchMemos "secret" "acme" (reject (NonError Null))
                 {| query := "test"; page := Some two_and_a_half; perPage := None |}) = [r] /\
     param "page" (searchParams (url r)) = Some "2.5").
Proof.
  repeat split.
  - exact (proj1 (page_and_id_are_not_validated "secret" "acme" (reject (NonError Null)))
             {| query := "test"; page := Some (of_Z 0); perPage := None |}
             (of_Z 0) eq_refl).
  - exact (proj1 (page_and_id_are_not_validated "secret" "acme" (reject (NonError Null)))
             {| query := "test"; page := Some (of_Z (-3)); perPage := None |}
             (of_Z (-3)) eq_refl).
  - exact (proj1 (page_and_id_are_not_validated "secret" "acme" (reject (NonError Null)))
             {| query := "test"; page := Some two_and_a_half; perPage := None |}
             two_and_a_half eq_refl).
Defined.

(** ** C10 *)

(** C10.  Every search request carries exactly the three parameters [q],
    [page] and [per_page], in this order; an absent [page] goes out as 1
    and an absent [perPage] as 20. *)
Theorem absent_page_and_perPage_take_defaults :
  forall (token domain : string) (fetch : Request -> completion Response)
         (params : SearchMemosParams),
  exists r : Request,
    requests (searchMemos token domain fetch params) = [r] /\
    map fst (searchParams (url r)) = ["q"; "page"; "per_page"] /\
    param "q" (searchParams (url r)) = Some (query params) /\
    (page params = None -> param "page" (searchParams (url r)) = Some "1") /\
    (perPage params = None ->
       param "per_page" (searchParams (url r)) = Some "20").
Proof.
  intros token domain fetch params.
  exists (searchMemos_request token domain params).
  rewrite searchMemos_eq. split; [reflexivity|].
  rewrite searchMemos_request_params.
  cbn [param String.eqb Ascii.eqb Bool.eqb map fst].
  repeat split.
  - intros H. rewrite H. cbn. now rewrite toString_1.
  - intros H. rewrite H. cbn. now rewrite toString_20.
Qed.

(** The query [test] alone: the request carries [q=test], [page=1] and
    [per_page=20]. *)
Lemma absent_page_and_perPage_witness :
  exists r : Request,
    requests (searchMemos "secret" "acme"
                (respond 200 "OK" (inr (search_body [post7]))) search_test) = [r] /\
    map fst (searchParams (url r)) = ["q"; "page"; "per_page"] /\
    param "q" (searchParams (url r)) = Some "test" /\
    param "page" (searchParams (url r)) = Some "1" /\
    param "per_page" (searchParams (url r)) = Some "20".
Proof.
  destruct (absent_page_and_perPage_take_defaults "secret" "acme"
              (respond 200 "OK" (inr (search_body [post7]))) search_test)
    as (r & Hr & Hnames & Hq & Hpage & HperPage).
  exists r. split; [exact Hr|]. split; [exact Hnames|]. split; [exact Hq|].
  split; [exact (Hpage eq_refl) | exact (HperPage eq_refl)].
Defined.

(* ===================================================================== *)
(** * Further properties of the handlers                                  *)
(* ===================================================================== *)

(** ** Projections, case by case *)

Lemma Get_nullish (v : value) (k : string) :
  nullish v = true -> exists msg, Get v k = inl (ErrorInstance (TypeError msg)).
Proof. destruct v; simpl; intros H; try discriminate H; eexists; reflexivity. Qed.

Lemma memo_of_post_nullish (post : value) :
  nullish post = true ->
  exists msg, memo_of_post post = inl (ErrorInstance (TypeError msg)).
Proof. destruct post; simpl; intros H; try discriminate H; eexists; reflexivity. Qed.

(** [map] over an array completes when no element is nullish and throws a
    [TypeError] otherwise. *)
Lemma map_elements_cases (f : value -> completion value) (g : value -> value) :
  (forall x, nullish x = false -> f x = inr (g x)) ->
  (forall x, nullish x = true -> exists msg, f x = inl (ErrorInstance (TypeError msg))) ->
  forall l : list value,
    (forallb not_nullish l = true -> map_elements f l = inr (map g l)) /\
    (forallb not_nullish l = false ->
     exists msg, map_elements f l = inl (ErrorInstance (TypeError msg))).
Proof.
  intros Hok Hbad. induction l as [|x l [IHok IHbad]]; cbn [forallb map_elements map].
  - split; [reflexivity | discriminate].
  - unfold not_nullish at 1 3. destruct (nullish x) eqn:Hx; cbn [negb andb].
    + split; [discriminate|]. intros _.
      destruct (Hbad x Hx) as [msg ->]. exists msg. reflexivity.
    + rewrite (Hok x Hx). split.
      * intros H. rewrite (IHok H). reflexivity.
      * intros H. destruct (IHbad H) as [msg ->]. exists msg. reflexivity.
Qed.

Lemma Array_map_cases (callee : string) (f : value -> completion value)
      (g : value -> value) (v : value) :
  (forall x, nullish x = false -> f x = inr (g x)) ->
  (forall x, nullish x = true -> exists msg, f x = inl (ErrorInstance (TypeError msg))) ->
  (well_formed_array v = true ->
   Array_map callee v f = inr (Arr (map g (elements v)))) /\
  (well_formed_array v = false ->
   exists msg, Array_map callee v f = inl (ErrorInstance (TypeError msg))).
Proof.
  intros Hok Hbad.
  destruct v; cbn [well_formed_array Array_map elements];
    try (split; [discriminate | intros _; eexists; reflexivity]).
  destruct (map_elements_cases f g Hok Hbad elems) as [Hall Hsome]. split.
  - intros H. rewrite (Hall H). reflexivity.
  - intros H. destruct (Hsome H) as [msg ->]. exists msg. reflexivity.
Qed.

Lemma search_projection_cases (result : value) :
  (search_shape result = true ->
   search_projection result = inr (search_object result)) /\
  (search_shape result = false ->
   exists msg, search_projection result = inl (ErrorInstance (TypeError msg))).
Proof.
  unfold search_shape, search_projection, search_object.
  destruct (nullish result) eqn:Hres.
  - destruct (Get_nullish result "posts" Hres) as [msg ->].
    replace (field result "posts") with Undefined
      by (destruct result; try discriminate Hres; reflexivity).
    split; [discriminate | intros _; exists msg; reflexivity].
  - rewrite !(Get_field result _ Hres). cbn [bind Monad_either].
    destruct (Array_map_cases "result.posts.map" memo_of_post memo
                (field result "posts") memo_of_post_memo memo_of_post_nullish)
      as [Hwf Hnot].
    destruct (well_formed_array (field result "posts")) eqn:Hposts; cbn [andb].
    + rewrite (Hwf eq_refl). unfold not_nullish.
      destruct (nullish (field result "meta")) eqn:Hmeta; cbn [negb].
      * split; [discriminate|]. intros _.
        destruct (Get_nullish _ "total" Hmeta) as [msg ->]. exists msg. reflexivity.
      * rewrite !(Get_field _ _ Hmeta). split; [reflexivity | discriminate].
    + destruct (Hnot eq_refl) as [msg ->].
      split; [discriminate | intros _; exists msg; reflexivity].
Qed.

Lemma name_of_nullish (x : value) :
  nullish x = true -> exists msg, name_of x = inl (ErrorInstance (TypeError msg)).
Proof. apply Get_nullish. Qed.

Lemma detail_projection_cases (m : value) :
  (detail_shape m = true -> detail_projection m = inr (detail_object m)) /\
  (detail_shape m = false ->
   exists msg, detail_projection m = inl (ErrorInstance (TypeError msg))).
Proof.
  unfold detail_shape, detail_projection, detail_object.
  destruct (nullish m) eqn:Hm.
  - destruct (Get_nullish m "id" Hm) as [msg ->].
    replace (field m "tags") with Undefined
      by (destruct m; try discriminate Hm; reflexivity).
    split; [discriminate | intros _; exists msg; reflexivity].
  - rewrite !(Get_field m _ Hm). cbn [bind Monad_either].
    destruct (Array_map_cases "memo.tags.map" name_of (fun tag => field tag "name")
                (field m "tags") (fun x H => Get_field x "name" H) name_of_nullish)
      as [Htags Hnotags].
    destruct (Array_map_cases "memo.groups.map" name_of (fun g => field g "name")
                (field m "groups") (fun x H => Get_field x "name" H) name_of_nullish)
      as [Hgroups Hnogroups].
    destruct (well_formed_array (field m "tags")) eqn:Et; cbn [andb].
    + rewrite (Htags eq_refl). unfold not_nullish.
      destruct (nullish (field m "user")) eqn:Eu; cbn [negb andb].
      * split; [discriminate|]. intros _.
        destruct (Get_nullish _ "name" Eu) as [msg ->]. exists msg. reflexivity.
      * rewrite (Get_field _ "name" Eu).
        destruct (well_formed_array (field m "groups")) eqn:Eg.
        -- rewrite (Hgroups eq_refl). split; [reflexivity | discriminate].
        -- destruct (Hnogroups eq_refl) as [msg ->].
           split; [discriminate | intros _; exists msg; reflexivity].
    + destruct (Hnotags eq_refl) as [msg ->].
      split; [discriminate | intros _; exists msg; reflexivity].
Qed.

Lemma rethrow_is_Error (t : thrown) : instanceof_Error (rethrow t) = true.
Proof. destruct t; reflexivity. Qed.

Lemma rethrow_Error (e : Error) : rethrow (ErrorInstance e) = ErrorInstance e.
Proof. reflexivity. Qed.

(** ** The handlers, beyond the claims *)

(** X1.  Either tool hands exactly one request to [fetch], whatever the
    network answers and however the call ends: nothing is retried and no
    further page is fetched. *)
Theorem each_call_makes_one_request :
  forall (token domain : string) (fetch : Request -> completion Response),
    (forall params : SearchMemosParams,
       List.length (requests (searchMemos token domain fetch params)) = 1%nat) /\
    (forall params : GetMemoDetailParams,
       List.length (requests (getMemoDetail token domain fetch params)) = 1%nat).
Proof.
  intros token domain fetch. split; intros params.
  - now rewrite searchMemos_eq.
  - now rewrite getMemoDetail_eq.
Qed.

(** X2.  What either tool throws is an instance of [Error]. *)
Theorem tools_throw_only_Errors :
  forall (token domain : string) (fetch : Request -> completion Response)
         (t : thrown),
    (forall params : SearchMemosParams,
       outcome (searchMemos token domain fetch params) = inl t ->
       instanceof_Error t = true) /\
    (forall params : GetMemoDetailParams,
       outcome (getMemoDetail token domain fetch params) = inl t ->
       instanceof_Error t = true).
Proof.
  intros token domain fetch t. split; intros params.
  - rewrite searchMemos_eq. unfold outcome, search_outcome. cbn [snd].
    destruct (fetch _) as [t0|response].
    { intros H. injection H as <-. apply rethrow_is_Error. }
    destruct (ok response).
    2:{ intros H. injection H as <-. reflexivity. }
    destruct (json response) as [t0|result].
    { intros H. injection H as <-. apply rethrow_is_Error. }
    destruct (search_projection result) as [t0|projected]; [|discriminate].
    intros H. injection H as <-. apply rethrow_is_Error.
  - rewrite getMemoDetail_eq. unfold outcome, detail_outcome. cbn [snd].
    destruct (fetch _) as [t0|response].
    { intros H. injection H as <-. apply rethrow_is_Error. }
    destruct (ok response).
    2:{ intros H. injection H as <-. reflexivity. }
    destruct (json response) as [t0|m].
    { intros H. injection H as <-. apply rethrow_is_Error. }
    destruct (detail_projection m) as [t0|projected]; [|discriminate].
    intros H. injection H as <-. apply rethrow_is_Error.
Qed.

(** A [fetch] that rejects with a string: the tool throws an [Error]. *)
Lemma tools_throw_only_Errors_witness :
  outcome (searchMemos "secret" "acme" (reject (NonError (Str "boom"))) search_test)
  = inl (ErrorInstance (Error_new UNKNOWN_ERROR)) /\
  instanceof_Error (ErrorInstance (Error_new UNKNOWN_ERROR)) = true.
Proof.
  split; [reflexivity|].
  exact (proj1 (tools_throw_only_Errors "secret" "acme"
                  (reject (NonError (Str "boom")))
                  (ErrorInstance (Error_new UNKNOWN_ERROR)))
               search_test eq_refl).
Defined.

Lemma per_page_not_above_100 (perPage : option number) :
  gt (default_to (of_Z 20) (limitedPerPage perPage)) (of_Z 100) = false.
Proof.
  destruct perPage as [v|]; [|reflexivity].
  rewrite limitedPerPage_Some. cbn [default_to].
  destruct (gt v (of_Z 100)) eqn:H; [reflexivity | exact H].
Qed.

(** The number that goes out as [per_page]. *)
Lemma per_page_number_binary64 (perPage : option number) :
  (forall v, perPage = Some v -> is_binary64 v = true) ->
  is_binary64 (default_to (of_Z 20) (limitedPerPage perPage)) = true.
Proof.
  intros H. destruct perPage as [v|]; [|reflexivity].
  rewrite limitedPerPage_Some. cbn [default_to].
  destruct (gt v (of_Z 100)); [reflexivity | now apply H].
Qed.

(** X3.  The search request carries as [per_page] the decimal form of one
    number, which is a binary64 value when [perPage] is, and which is not
    greater than 100: it is [perPage] itself unless that is above 100 (so
    zero and negative values go out as they are), 100 when it is, and 20
    when [perPage] is absent. *)
Theorem per_page_sent_is_at_most_100 :
  forall (token domain : string) (fetch : Request -> completion Response)
         (params : SearchMemosParams),
  exists (r : Request) (n : number),
    requests (searchMemos token domain fetch params) = [r] /\
    param "per_page" (searchParams (url r)) = Some (Number_toString n) /\
    gt n (of_Z 100) = false /\
    ((forall v, perPage params = Some v -> is_binary64 v = true) ->
     is_binary64 n = true) /\
    (forall v, perPage params = Some v -> gt v (of_Z 100) = false -> n = v) /\
    (forall v, perPage params = Some v -> gt v (of_Z 100) = true -> n = of_Z 100) /\
    (perPage params = None -> n = of_Z 20).
Proof.
  intros token domain fetch params.
  exists (searchMemos_request token domain params),
         (default_to (of_Z 20) (limitedPerPage (perPage params))).
  rewrite searchMemos_eq. split; [reflexivity|]. split; [reflexivity|].
  split; [apply per_page_not_above_100|].
  split; [apply per_page_number_binary64|].
  repeat split.
  - intros v Hv Hgt. now rewrite Hv, limitedPerPage_Some, Hgt.
  - intros v Hv Hgt. now rewrite Hv, limitedPerPage_Some, Hgt.
  - intros H. now rewrite H.
Qed.

(** Five hundred per page, and minus five per page. *)
Lemma per_page_sent_is_at_most_100_witness :
  (exists (r : Request) (n : number),
     requests (searchMemos "secret" "acme" (reject network_down)
                 {| query := "test"; page := None; perPage := Some (of_Z 500) |}) = [r] /\
     param "per_page" (searchParams (url r)) = Some (Number_toString n) /\
     gt n (of_Z 100) = false /\ is_binary64 n = true /\ n = of_Z 100) /\
  (exists (r : Request) (n : number),
     requests (searchMemos "secret" "acme" (reject network_down)
                 {| query := "test"; page := None; perPage := Some (of_Z (-5)) |}) = [r] /\
     param "per_page" (searchParams (url r)) = Some (Number_toString n) /\
     gt n (of_Z 100) = false /\ is_binary64 n = true /\ n = of_Z (-5)).
Proof.
  split.
  - destruct (per_page_sent_is_at_most_100 "secret" "acme" (reject network_down)
                {| query := "test"; page := None; perPage := Some (of_Z 500) |})
      as (r & n & Hr & Hp & Hb & Hbin & _ & Hhigh & _).
    exists r, n. repeat split; try assumption.
    + apply Hbin. intros v Hv. injection Hv as <-. reflexivity.
    + apply (Hhigh (of_Z 500)); reflexivity.
  - destruct (per_page_sent_is_at_most_100 "secret" "acme" (reject network_down)
                {| query := "test"; page := None; perPage := Some (of_Z (-5)) |})
      as (r & n & Hr & Hp & Hb & Hbin & Hlow & _).
    exists r, n. repeat split; try assumption.
    + apply Hbin. intros v Hv. injection Hv as <-. reflexivity.
    + apply (Hlow (of_Z (-5))); reflexivity.
Defined.

(** X4.  Two calls whose [perPage] are both above 100 are the same call;
    so are a call without [page] and [perPage] and the call with page 1 and
    20 per page. *)
Theorem calls_the_upstream_cannot_tell_apart :
  forall (token domain : string) (fetch : Request -> completion Response)
         (q : string) (pg : option number),
    (forall v w : number,
       gt v (of_Z 100) = true -> gt w (of_Z 100) = true ->
       searchMemos token domain fetch {| query := q; page := pg; perPage := Some v |}
       = searchMemos token domain fetch {| query := q; page := pg; perPage := Some w |}) /\
    searchMemos token domain fetch {| query := q; page := None; perPage := None |}
    = searchMemos token domain fetch
        {| query := q; page := Some (of_Z 1); perPage := Some (of_Z 20) |}.
Proof.
  intros token domain fetch q pg. split.
  - intros v w Hv Hw. rewrite !searchMemos_eq.
    assert (E : searchMemos_request token domain
                  {| query := q; page := pg; perPage := Some v |}
                = searchMemos_request token domain
                  {| query := q; page := pg; perPage := Some w |}).
    { unfold searchMemos_request, searchMemos_url. cbn [query page perPage].
      now rewrite !limitedPerPage_Some, Hv, Hw. }
    unfold search_outcome. now rewrite E.
  - rewrite !searchMemos_eq. reflexivity.
Qed.

(** 500 per page and infinitely many per page. *)
Lemma calls_the_upstream_cannot_tell_apart_witness :
  searchMemos "secret" "acme" (respond 200 "OK" (inr (search_body [post7])))
    {| query := "test"; page := None; perPage := Some (of_Z 500) |}
  = searchMemos "secret" "acme" (respond 200 "OK" (inr (search_body [post7])))
    {| query := "test"; page := None; perPage := Some (S754_infinity false) |}.
Proof.
  exact (proj1 (calls_the_upstream_cannot_tell_apart "secret" "acme"
                  (respond 200 "OK" (inr (search_body [post7]))) "test" None)
               (of_Z 500) (S754_infinity false) eq_refl eq_refl).
Defined.

(** X5.  The token travels in the header only: the URL either tool
    requests is the same whatever the token is. *)
Theorem url_does_not_depend_on_token :
  forall (token token' domain : string)
         (fetch fetch' : Request -> completion Response),
    (forall params : SearchMemosParams,
       map url (requests (searchMemos token domain fetch params))
       = map url (requests (searchMemos token' domain fetch' params))) /\
    (forall params : GetMemoDetailParams,
       map url (requests (getMemoDetail token domain fetch params))
       = map url (requests (getMemoDetail token' domain fetch' params))).
Proof.
  intros token token' domain fetch fetch'. split; intros params.
  - now rewrite !searchMemos_eq.
  - now rewrite !getMemoDetail_eq.
Qed.

(** X6.  Given a 2xx response with a JSON body, the search tool succeeds
    exactly on the bodies whose [posts] is an array without [null] and
    whose [meta] is not [null] or missing, answering the object built from
    them; on every other body it throws a [TypeError]. *)
Theorem search_succeeds_on_well_shaped_bodies_only :
  forall (token domain : string) (fetch : Request -> completion Response)
         (params : SearchMemosParams) (response : Response) (result : value),
    fetch (searchMemos_request token domain params) = inr response ->
    ok response = true ->
    json response = inr result ->
    (search_shape result = true ->
     outcome (searchMemos token domain fetch params)
     = inr (text_result (search_object result))) /\
    (search_shape result = false ->
     exists msg : string,
       outcome (searchMemos token domain fetch params)
       = inl (ErrorInstance (TypeError msg))).
Proof.
  intros token domain fetch params response result Hfetch Hok Hjson.
  rewrite searchMemos_eq. unfold outcome, search_outcome. cbn [snd].
  rewrite Hfetch, Hok, Hjson.
  destruct (search_projection_cases result) as [Hgood Hbad]. split.
  - intros H. now rewrite (Hgood H).
  - intros H. destruct (Hbad H) as [msg ->]. exists msg. reflexivity.
Qed.

(** A body with [posts] and [meta], and one without [meta]. *)
Lemma search_succeeds_on_well_shaped_bodies_only_witness :
  outcome (searchMemos "secret" "acme"
             (respond 200 "OK" (inr (search_body [post7]))) search_test)
  = inr (text_result (search_object (search_body [post7]))) /\
  search_shape body_without_meta = false /\
  exists msg : string,
    outcome (searchMemos "secret" "acme"
               (respond 200 "OK" (inr body_without_meta)) search_test)
    = inl (ErrorInstance (TypeError msg)).
Proof.
  split; [|split; [reflexivity|]].
  - exact (proj1 (search_succeeds_on_well_shaped_bodies_only "secret" "acme"
                    (respond 200 "OK" (inr (search_body [post7]))) search_test
                    {| status := 200; statusText := "OK";
                       json := inr (search_body [post7]) |}
                    (search_body [post7]) eq_refl eq_refl eq_refl) eq_refl).
  - exact (proj2 (search_succeeds_on_well_shaped_bodies_only "secret" "acme"
                    (respond 200 "OK" (inr body_without_meta)) search_test
                    {| status := 200; statusText := "OK";
                       json := inr body_without_meta |}
                    body_without_meta eq_refl eq_refl eq_refl) eq_refl).
Defined.

(** X7.  Given a 2xx response with a JSON body, the detail tool succeeds
    exactly on the bodies whose [tags] and [groups] are arrays without
    [null] and whose [user] is not [null] or missing; on every other body
    it throws a [TypeError]. *)
Theorem detail_succeeds_on_well_shaped_bodies_only :
  forall (token domain : string) (fetch : Request -> completion Response)
         (params : GetMemoDetailParams) (response : Response) (m : value),
    fetch (getMemoDetail_request token domain params) = inr response ->
    ok response = true ->
    json response = inr m ->
    (detail_shape m = true ->
     outcome (getMemoDetail token domain fetch params)
     = inr (text_result (detail_object m))) /\
    (detail_shape m = false ->
     exists msg : string,
       outcome (getMemoDetail token domain fetch params)
       = inl (ErrorInstance (TypeError msg))).
Proof.
  intros token domain fetch params response m Hfetch Hok Hjson.
  rewrite getMemoDetail_eq. unfold outcome, detail_outcome. cbn [snd].
  rewrite Hfetch, Hok, Hjson.
  destruct (detail_projection_cases m) as [Hgood Hbad]. split.
  - intros H. now rewrite (Hgood H).
  - intros H. destruct (Hbad H) as [msg ->]. exists msg. reflexivity.
Qed.

(** The memo of the samples, and a memo one of whose tags is [null]. *)
Lemma detail_succeeds_on_well_shaped_bodies_only_witness :
  outcome (getMemoDetail "secret" "acme"
             (respond 200 "OK" (inr detail_body)) {| id := "7" |})
  = inr (text_result (detail_object detail_body)) /\
  detail_shape body_with_null_tag = false /\
  exists msg : string,
    outcome (getMemoDetail "secret" "acme"
               (respond 200 "OK" (inr body_with_null_tag)) {| id := "7" |})
    = inl (ErrorInstance (TypeError msg)).
Proof.
  split; [|split; [reflexivity|]].
  - exact (proj1 (detail_succeeds_on_well_shaped_bodies_only "secret" "acme"
                    (respond 200 "OK" (inr detail_body)) {| id := "7" |}
                    {| status := 200; statusText := "OK"; json := inr detail_body |}
                    detail_body eq_refl eq_refl eq_refl) eq_refl).
  - exact (proj2 (detail_succeeds_on_well_shaped_bodies_only "secret" "acme"
                    (respond 200 "OK" (inr body_with_null_tag)) {| id := "7" |}
                    {| status := 200; statusText := "OK";
                       json := inr body_with_null_tag |}
                    body_with_null_tag eq_refl eq_refl eq_refl) eq_refl).
Defined.

(** X8.  An [Error] with which [fetch] rejects, or with which
    [response.json()] of a 2xx response rejects, is the error of the tool,
    as it is. *)
Theorem transport_errors_surface_unchanged :
  forall (token domain : string) (fetch : Request -> completion Response)
         (e : Error),
    (forall params : SearchMemosParams,
       (fetch (searchMemos_request token domain params) = inl (ErrorInstance e) ->
        outcome (searchMemos token domain fetch params) = inl (ErrorInstance e)) /\
       (forall response : Response,
          fetch (searchMemos_request token domain params) = inr response ->
          ok response = true ->
          json response = inl (ErrorInstance e) ->
          outcome (searchMemos token domain fetch params) = inl (ErrorInstance e))) /\
    (forall params : GetMemoDetailParams,
       (fetch (getMemoDetail_request token domain params) = inl (ErrorInstance e) ->
        outcome (getMemoDetail token domain fetch params) = inl (ErrorInstance e)) /\
       (forall response : Response,
          fetch (getMemoDetail_request token domain params) = inr response ->
          ok response = true ->
          json response = inl (ErrorInstance e) ->
          outcome (getMemoDetail token domain fetch params) = inl (ErrorInstance e))).
Proof.
  intros token domain fetch e. split; intros params; split.
  - intros H. rewrite searchMemos_eq. unfold outcome, search_outcome. cbn [snd].
    now rewrite H.
  - intros response H Hok Hjson. rewrite searchMemos_eq.
    unfold outcome, search_outcome. cbn [snd]. now rewrite H, Hok, Hjson.
  - intros H. rewrite getMemoDetail_eq. unfold outcome, detail_outcome. cbn [snd].
    now rewrite H.
  - intros response H Hok Hjson. rewrite getMemoDetail_eq.
    unfold outcome, detail_outcome. cbn [snd]. now rewrite H, Hok, Hjson.
Qed.

(** The network is down. *)
Lemma transport_errors_surface_unchanged_witness :
  outcome (searchMemos "secret" "acme" (reject network_down) search_test)
  = inl network_down /\
  outcome (getMemoDetail "secret" "acme" (reject network_down) {| id := "7" |})
  = inl network_down.
Proof.
  split.
  - exact (proj1 (proj1 (transport_errors_surface_unchanged "secret" "acme"
                           (reject network_down) (HostError "TypeError" "fetch failed"))
                        search_test) eq_refl).
  - exact (proj1 (proj2 (transport_errors_surface_unchanged "secret" "acme"
                           (reject network_down) (HostError "TypeError" "fetch failed"))
                        {| id := "7" |}) eq_refl).
Defined.

(** ** Whole numbers *)

Lemma whole_numbers_below_1000 :
  forallb whole_number_goes_out_in_decimal (map N.of_nat (seq 0 1000)) = true.
Proof. vm_compute. reflexivity. Qed.

Lemma whole_number_below_1000 (n : N) :
  (n < 1000)%N ->
  Number_toString (of_Z (Z.of_N n)) = digits_of_Z (Z.of_N n) /\
  Number_toString (default_to (of_Z 20) (limitedPerPage (Some (of_Z (Z.of_N n)))))
  = digits_of_Z (Z.min (Z.of_N n) 100).
Proof.
  intros H. pose proof whole_numbers_below_1000 as A.
  rewrite forallb_forall in A. specialize (A n).
  assert (I : In n (map N.of_nat (seq 0 1000))).
  { apply in_map_iff. exists (N.to_nat n). split; [apply Nnat.N2Nat.id|].
    apply in_seq. lia. }
  specialize (A I). unfold whole_number_goes_out_in_decimal in A.
  apply andb_true_iff in A. destruct A as [A1 A2].
  apply String.eqb_eq in A1. apply String.eqb_eq in A2. split; assumption.
Qed.

(** X16.  A whole number [n] below 1000 given as [page] goes out as the
    decimal digits of [n]; given as [perPage] it goes out as the decimal
    digits of the smaller of [n] and 100. *)
Theorem whole_page_and_perPage_go_out_in_decimal :
  forall (token domain : string) (fetch : Request -> completion Response)
         (q : string) (n k : N),
    (n < 1000)%N -> (k < 1000)%N ->
    exists r : Request,
      requests (searchMemos token domain fetch
                  {| query := q; page := Some (of_Z (Z.of_N n));
                     perPage := Some (of_Z (Z.of_N k)) |}) = [r] /\
      param "page" (searchParams (url r)) = Some (digits_of_Z (Z.of_N n)) /\
      param "per_page" (searchParams (url r))
      = Some (digits_of_Z (Z.min (Z.of_N k) 100)).
Proof.
  intros token domain fetch q n k Hn Hk.
  exists (searchMemos_request token domain
            {| query := q; page := Some (of_Z (Z.of_N n));
               perPage := Some (of_Z (Z.of_N k)) |}).
  rewrite searchMemos_eq. split; [reflexivity|].
  rewrite searchMemos_request_params.
  cbn [param String.eqb Ascii.eqb Bool.eqb page perPage default_to].
  destruct (whole_number_below_1000 n Hn) as [Hpage _].
  destruct (whole_number_below_1000 k Hk) as [_ HperPage].
  split; [now rewrite Hpage | now rewrite HperPage].
Qed.

(** Page 3 with 250 per page. *)
Lemma whole_page_and_perPage_witness :
  exists r : Request,
    requests (searchMemos "secret" "acme" (reject network_down)
                {| query := "test"; page := Some (of_Z 3);
                   perPage := Some (of_Z 250) |}) = [r] /\
    param "page" (searchParams (url r)) = Some "3" /\
    param "per_page" (searchParams (url r)) = Some "100".
Proof.
  exact (whole_page_and_perPage_go_out_in_decimal "secret" "acme"
           (reject network_down) "test" 3 250 eq_refl eq_refl).
Defined.

(** ** Loading the module, beyond the claims *)

Lemma diagnostics_differ :
  String.eqb Startup.TOKEN_MISSING Startup.DOMAIN_MISSING = false.
Proof. vm_compute. reflexivity. Qed.

(** X9.  Loading the module connects the server exactly when both
    variables are set and not empty. *)
Theorem server_connects_iff_both_variables_are_set :
  forall (env : Startup.environment) (connect : completion unit),
    existsb Startup.is_server_connect (Startup.load env connect) = true
    <-> Startup.not_ (env "DOCBASE_TOKEN") = false /\
        Startup.not_ (env "DOCBASE_DOMAIN") = false.
Proof.
  intros env connect. unfold Startup.load.
  destruct (Startup.not_ (env "DOCBASE_TOKEN"));
    [cbn; split; [discriminate | intros [H _]; discriminate H]|].
  destruct (Startup.not_ (env "DOCBASE_DOMAIN"));
    [cbn; split; [discriminate | intros [_ H]; discriminate H]|].
  destruct connect; cbn; split; auto.
Qed.

(** X10.  Loading the module ends the process exactly when a variable is
    missing or [server.connect] rejects; the exit status is then 1, and the
    exit is the last thing that happens. *)
Theorem process_exits_iff_variable_missing_or_connect_fails :
  forall (env : Startup.environment) (connect : completion unit),
    (existsb is_process_exit (Startup.load env connect) = true
     <-> Startup.not_ (env "DOCBASE_TOKEN") = true \/
         Startup.not_ (env "DOCBASE_DOMAIN") = true \/
         rejected connect = true) /\
    (forall code : Z,
       In (Startup.process_exit code) (Startup.load env connect) ->
       code = 1%Z /\
       last (Startup.load env connect) (Startup.process_exit code)
       = Startup.process_exit 1).
Proof.
  intros env connect. unfold Startup.load.
  destruct (Startup.not_ (env "DOCBASE_TOKEN")).
  { cbn. split; [split; auto|].
    intros code [H|[H|[]]]; [discriminate H|]. injection H as <-. auto. }
  destruct (Startup.not_ (env "DOCBASE_DOMAIN")).
  { cbn. split; [split; auto|].
    intros code [H|[H|[]]]; [discriminate H|]. injection H as <-. auto. }
  destruct connect as [t|[]]; cbn.
  - split; [split; auto|].
    intros code H.
    repeat (destruct H as [H|H]; [try discriminate H|]); try contradiction.
    injection H as <-. auto.
  - split.
    + split; [discriminate|]. intros [H|[H|H]]; discriminate H.
    + intros code H.
      repeat (destruct H as [H|H]; [discriminate H|]). contradiction.
Qed.

(** X11.  The token is checked first: the diagnostic names the domain
    exactly when the token is set and the domain is not. *)
Theorem domain_diagnostic_iff_only_domain_is_missing :
  forall (env : Startup.environment) (connect : completion unit),
    Startup.load env connect
    = [Startup.console_error Startup.DOMAIN_MISSING; Startup.process_exit 1]
    <-> Startup.not_ (env "DOCBASE_TOKEN") = false /\
        Startup.not_ (env "DOCBASE_DOMAIN") = true.
Proof.
  intros env connect. unfold Startup.load.
  destruct (Startup.not_ (env "DOCBASE_TOKEN")).
  { split; [|intros [H _]; discriminate H].
    intros H. exfalso.
    apply (f_equal (fun l => match l with
                             | Startup.console_error m :: _ => m
                             | _ => ""
                             end)) in H.
    cbv beta iota in H.
    pose proof diagnostics_differ as D. apply String.eqb_neq in D.
    exact (D H). }
  destruct (Startup.not_ (env "DOCBASE_DOMAIN")).
  { split; auto. }
  split; [|intros [_ H]; discriminate H].
  destruct connect; cbn; intros H; discriminate H.
Qed.

(** ** What the URL parser makes of an id *)

Lemma segment_char_facts (c : ascii) :
  segment_char c = true ->
  is_tab_or_newline c = false /\ one_of [47; 92] c = false /\
  Nat.eqb (code c) 63 = false /\ Nat.eqb (code c) 35 = false.
Proof.
  destruct c as [[] [] [] [] [] [] [] []]; vm_compute; intros H;
    try discriminate H; repeat split.
Qed.

(** The path state encodes a run of segment characters into the buffer. *)
Lemma path_state_run (seg : list ascii) :
  forallb segment_char seg = true ->
  forall (rest : list ascii) (buffer : string) (p : list string),
    path_state (seg ++ rest) buffer p
    = path_state rest (buffer ++ percent_encode_all path_set seg) p.
Proof.
  induction seg as [|c seg IH]; intros H rest buffer p;
    cbn [app path_state percent_encode_all].
  - now rewrite append_empty_r.
  - cbn [forallb] in H. apply andb_true_iff in H. destruct H as [Hc Hseg].
    destruct (segment_char_facts c Hc) as (_ & H1 & H2 & H3).
    rewrite H1, H2, H3. rewrite (IH Hseg). now rewrite string_append_assoc.
Qed.

Lemma strip_leading_head (c : ascii) (cs : list ascii) :
  is_c0_control_or_space c = false -> strip_leading (c :: cs) = c :: cs.
Proof. intros H. cbn [strip_leading]. now rewrite H. Qed.

Lemma filter_no_tab_or_newline (cs : list ascii) :
  forallb (fun c => negb (is_tab_or_newline c)) cs = true ->
  filter (fun c => negb (is_tab_or_newline c)) cs = cs.
Proof.
  induction cs as [|c cs IH]; cbn [forallb filter]; [reflexivity|].
  intros H. apply andb_true_iff in H. destruct H as [Hc Hcs].
  now rewrite Hc, (IH Hcs).
Qed.

(** Preprocessing leaves alone an input that starts and ends with a
    character it does not trim and holds no tab or newline. *)
Lemma preprocess_untrimmed (c : ascii) (cs : list ascii) :
  is_c0_control_or_space c = false ->
  is_c0_control_or_space (last (c :: cs) c) = false ->
  forallb (fun x => negb (is_tab_or_newline x)) (c :: cs) = true ->
  filter (fun x => negb (is_tab_or_newline x)) (strip (c :: cs)) = c :: cs.
Proof.
  intros Hhead Hlast Hall. unfold strip.
  rewrite (strip_leading_head c cs Hhead).
  assert (E : rev (c :: cs) = last (c :: cs) c :: rev (removelast (c :: cs))).
  { rewrite (app_removelast_last c (l := c :: cs)) at 1 by discriminate.
    now rewrite rev_app_distr. }
  rewrite E, (strip_leading_head _ _ Hlast), <- E, rev_involutive.
  now apply filter_no_tab_or_newline.
Qed.

Lemma last_cons (l : list ascii) (x d : ascii) :
  last (x :: l) d = last l x.
Proof.
  revert x d. induction l as [|z l IH]; intros x d; [reflexivity|].
  change (last (x :: z :: l) d) with (last (z :: l) d).
  now rewrite (IH z d), (IH z x).
Qed.

Lemma last_after_slash (l l' : list ascii) (d : ascii) :
  last (l ++ "/"%char :: l') d = last l' "/"%char.
Proof.
  revert d. induction l as [|x l IH]; intros d; cbn [app].
  - apply last_cons.
  - rewrite last_cons. apply IH.
Qed.

(** A path-absolute input that preprocessing leaves alone goes to the
    path state as it is. *)
Lemma URL_new_untrimmed (rest base : string) :
  is_c0_control_or_space
    (last ("/"%char :: list_ascii_of_string rest) "/"%char) = false ->
  forallb (fun x => negb (is_tab_or_newline x)) (list_ascii_of_string rest) = true ->
  URL_new (String "/" rest) base
  = let parts := path_state (list_ascii_of_string rest) "" [] in
    {| origin := base; path := fst (fst parts); Url.query := snd (fst parts);
       fragment := snd parts; searchParams := [] |}.
Proof.
  intros Hlast Hall. unfold URL_new. cbn [list_ascii_of_string].
  rewrite preprocess_untrimmed; [reflexivity | reflexivity | exact Hlast |].
  cbn [forallb]. now rewrite Hall.
Qed.

Lemma one_segment_facts (s : string) :
  one_segment s = true ->
  forallb segment_char (list_ascii_of_string s) = true /\
  is_c0_control_or_space (last (list_ascii_of_string s) "/"%char) = false /\
  is_single_dot (encoded s) = false /\ is_double_dot (encoded s) = false.
Proof.
  unfold one_segment. intros H.
  apply andb_true_iff in H. destruct H as [H Hdd].
  apply andb_true_iff in H. destruct H as [H Hsd].
  apply andb_true_iff in H. destruct H as [H Hlast].
  apply negb_true_iff in Hdd. apply negb_true_iff in Hsd.
  apply negb_true_iff in Hlast. auto.
Qed.

Lemma forallb_segment_no_tab (cs : list ascii) :
  forallb segment_char cs = true ->
  forallb (fun x => negb (is_tab_or_newline x)) cs = true.
Proof.
  rewrite !forallb_forall. intros H c Hc.
  destruct (segment_char_facts c (H c Hc)) as (E & _). now rewrite E.
Qed.

Lemma forallb_plain_no_tab (cs : list ascii) :
  forallb plain_char cs = true ->
  forallb (fun x => negb (is_tab_or_newline x)) cs = true.
Proof.
  rewrite !forallb_forall. intros H c Hc.
  destruct (plain_char_facts c (H c Hc)) as (_ & E & _). now rewrite E.
Qed.

Lemma path_state_encoded_last (s : string) (p : list string) :
  one_segment s = true ->
  path_state (list_ascii_of_string s) "" p
  = ((p ++ [encoded s])%list, None, None).
Proof.
  intros H. destruct (one_segment_facts s H) as (Hchars & _ & Hsd & Hdd).
  rewrite <- (app_nil_r (list_ascii_of_string s)).
  rewrite (path_state_run _ Hchars). cbn [append path_state].
  fold (encoded s). unfold end_segment. now rewrite Hdd, Hsd.
Qed.

(** The URL of the detail request for an id that is one segment. *)
Lemma URL_new_post_encoded (domain i base : string) :
  plain_segment domain = true -> one_segment i = true ->
  URL_new ("/teams/" ++ domain ++ "/posts/" ++ i) base
  = {| origin := base; path := ["teams"; domain; "posts"; encoded i];
       Url.query := None; fragment := None; searchParams := [] |}.
Proof.
  intros Hd Hi.
  destruct (plain_segment_chars domain Hd) as (Hchars & _ & _).
  destruct (one_segment_facts i Hi) as (Hichars & Hlast & _ & _).
  change ("/teams/" ++ domain ++ "/posts/" ++ i)
    with (String "/" ("teams" ++ String "/" (domain ++ String "/" ("posts" ++ String "/" i)))).
  assert (E : list_ascii_of_string
                ("teams" ++ String "/" (domain ++ String "/" ("posts" ++ String "/" i)))
              = (list_ascii_of_string "teams" ++ "/"%char ::
                 (list_ascii_of_string domain ++ "/"%char ::
                  (list_ascii_of_string "posts" ++ "/"%char ::
                   list_ascii_of_string i)))%list).
  { rewrite list_ascii_of_string_app. cbn [list_ascii_of_string].
    rewrite list_ascii_of_string_app. cbn [list_ascii_of_string].
    reflexivity. }
  rewrite URL_new_untrimmed.
  - rewrite E.
    rewrite (path_state_segment "teams") by reflexivity.
    rewrite (path_state_segment domain) by assumption.
    rewrite (path_state_segment "posts") by reflexivity.
    rewrite (path_state_encoded_last i) by assumption.
    reflexivity.
  - rewrite E.
    change ("/"%char :: (list_ascii_of_string "teams" ++ "/"%char ::
              (list_ascii_of_string domain ++ "/"%char ::
                (list_ascii_of_string "posts" ++ "/"%char ::
                  list_ascii_of_string i)))%list)
      with ((list_ascii_of_string "/teams" ++ "/"%char ::
              (list_ascii_of_string domain ++ "/"%char ::
                (list_ascii_of_string "posts" ++ "/"%char ::
                  list_ascii_of_string i)))%list).
    rewrite !last_after_slash. exact Hlast.
  - rewrite E. rewrite forallb_app. cbn [forallb]. rewrite forallb_app.
    cbn [forallb]. rewrite forallb_app. cbn [forallb].
    rewrite (forallb_plain_no_tab _ Hchars), (forallb_segment_no_tab _ Hichars).
    reflexivity.
Qed.

Lemma percent_encode_all_app (set : ascii -> bool) (a b : list ascii) :
  percent_encode_all set (a ++ b)
  = percent_encode_all set a ++ percent_encode_all set b.
Proof.
  induction a as [|c a IH]; cbn [app percent_encode_all append]; [reflexivity|].
  now rewrite IH, string_append_assoc.
Qed.

(** Without a hash the whole rest of the input is the query. *)
Lemma query_state_no_hash (cs : list ascii) :
  forallb query_char cs = true ->
  forall buffer : list ascii,
    query_state cs buffer
    = (percent_encode_all special_query_set (buffer ++ cs), None).
Proof.
  induction cs as [|c cs IH]; intros H buffer; cbn [query_state].
  - now rewrite app_nil_r.
  - cbn [forallb] in H. apply andb_true_iff in H. destruct H as [Hc Hcs].
    unfold query_char in Hc. apply andb_true_iff in Hc. destruct Hc as [_ Hc].
    apply negb_true_iff in Hc. rewrite Hc, (IH Hcs).
    now rewrite <- app_assoc.
Qed.

Lemma forallb_query_kept (cs : list ascii) :
  forallb query_char cs = true -> forallb kept cs = true.
Proof.
  rewrite !forallb_forall. intros H c Hc. specialize (H c Hc).
  unfold query_char in H. apply andb_true_iff in H. tauto.
Qed.

(** The URL of the detail request for an id with a question mark. *)
Lemma URL_new_post_query (domain i q base : string) :
  plain_segment domain = true -> plain_segment i = true -> query_text q = true ->
  URL_new ("/teams/" ++ domain ++ "/posts/" ++ i ++ "?" ++ q) base
  = {| origin := base; path := ["teams"; domain; "posts"; i];
       Url.query := Some (encoded_query q); fragment := None;
       searchParams := [] |}.
Proof.
  intros Hd Hi Hq.
  destruct (plain_segment_chars domain Hd) as (Hchars & _ & _).
  destruct (plain_segment_chars i Hi) as (Hichars & _ & _).
  change ("/teams/" ++ domain ++ "/posts/" ++ i ++ "?" ++ q)
    with (String "/" ("teams" ++ String "/" (domain ++ String "/"
            ("posts" ++ String "/" (i ++ String "?" q))))).
  assert (E : list_ascii_of_string
                ("teams" ++ String "/" (domain ++ String "/"
                   ("posts" ++ String "/" (i ++ String "?" q))))
              = (list_ascii_of_string "teams" ++ "/"%char ::
                 (list_ascii_of_string domain ++ "/"%char ::
                  (list_ascii_of_string "posts" ++ "/"%char ::
                   (list_ascii_of_string i ++ "?"%char ::
                    list_ascii_of_string q))))%list).
  { repeat (rewrite list_ascii_of_string_app; cbn [list_ascii_of_string]).
    reflexivity. }
  rewrite URL_new_path_absolute.
  2:{ rewrite E. rewrite forallb_app. cbn [forallb]. rewrite forallb_app.
      cbn [forallb]. rewrite forallb_app. cbn [forallb].
      rewrite forallb_app. cbn [forallb].
      rewrite (forallb_plain_kept _ Hchars), (forallb_plain_kept _ Hichars).
      unfold query_text in Hq. rewrite (forallb_query_kept _ Hq). reflexivity. }
  rewrite E.
  rewrite (path_state_segment "teams") by reflexivity.
  rewrite (path_state_segment domain) by assumption.
  rewrite (path_state_segment "posts") by reflexivity.
  rewrite (path_state_plain _ Hichars). cbn [append].
  rewrite string_of_list_ascii_of_string.
  cbn [path_state]. change (one_of [47; 92] "?"%char) with false.
  change (Nat.eqb (code "?"%char) 63) with true. cbv iota.
  rewrite (query_state_no_hash _ Hq). cbn [app fst snd].
  rewrite end_segment_plain by assumption. reflexivity.
Qed.

(** A double-dot segment drops the last segment of the path. *)
Lemma path_state_dot_dot (rest : list ascii) (p : list string) :
  path_state ("."%char :: "."%char :: "/"%char :: rest) "" p
  = path_state rest "" (removelast p).
Proof. reflexivity. Qed.

(** The URL of the detail request for an id that climbs three levels. *)
Lemma URL_new_post_climb (domain x base : string) :
  plain_segment domain = true -> plain_segment x = true ->
  URL_new ("/teams/" ++ domain ++ "/posts/" ++ "../../../" ++ x) base
  = {| origin := base; path := [x];
       Url.query := None; fragment := None; searchParams := [] |}.
Proof.
  intros Hd Hx.
  destruct (plain_segment_chars domain Hd) as (Hchars & _ & _).
  destruct (plain_segment_chars x Hx) as (Hxchars & _ & _).
  change ("/teams/" ++ domain ++ "/posts/" ++ "../../../" ++ x)
    with (String "/" ("teams" ++ String "/" (domain ++ String "/"
            ("posts" ++ String "/" ("../../../" ++ x))))).
  assert (E : list_ascii_of_string
                ("teams" ++ String "/" (domain ++ String "/"
                   ("posts" ++ String "/" ("../../../" ++ x))))
              = (list_ascii_of_string "teams" ++ "/"%char ::
                 (list_ascii_of_string domain ++ "/"%char ::
                  (list_ascii_of_string "posts" ++ "/"%char ::
                   (list_ascii_of_string "../../../" ++
                    list_ascii_of_string x))))%list).
  { rewrite list_ascii_of_string_app. cbn [list_ascii_of_string].
    rewrite list_ascii_of_string_app. cbn [list_ascii_of_string app].
    reflexivity. }
  rewrite URL_new_path_absolute.
  2:{ rewrite E. rewrite forallb_app. cbn [forallb]. rewrite forallb_app.
      cbn [forallb]. rewrite forallb_app. cbn [forallb].
      rewrite forallb_app.
      rewrite (forallb_plain_kept _ Hchars), (forallb_plain_kept _ Hxchars).
      reflexivity. }
  rewrite E.
  rewrite (path_state_segment "teams") by reflexivity.
  rewrite (path_state_segment domain) by assumption.
  rewrite (path_state_segment "posts") by reflexivity.
  cbn [list_ascii_of_string app].
  rewrite !path_state_dot_dot. cbn [removelast app].
  rewrite (path_state_last x) by assumption.
  reflexivity.
Qed.

(** X12.  For a plain domain and an id that is one segment, the detail
    request goes to [/teams/{domain}/posts/] followed by the id with the
    characters of the path percent-encode set (space, non-ASCII bytes and
    so on) percent-encoded, and has no query and no fragment. *)
Theorem id_becomes_one_encoded_segment :
  forall (token domain : string) (fetch : Request -> completion Response)
         (params : GetMemoDetailParams),
    plain_segment domain = true ->
    one_segment (id params) = true ->
    exists r : Request,
      requests (getMemoDetail token domain fetch params) = [r] /\
      pathname (url r) = "/teams/" ++ domain ++ "/posts/" ++ encoded (id params) /\
      Url.query (url r) = None /\
      fragment (url r) = None.
Proof.
  intros token domain fetch params Hd Hi.
  exists (getMemoDetail_request token domain params).
  rewrite getMemoDetail_eq. split; [reflexivity|].
  unfold getMemoDetail_request, pathname. cbn [method url headers].
  rewrite (URL_new_post_encoded domain (id params) BASE_URL Hd Hi).
  repeat split.
Qed.

(** The id [release notes]. *)
Lemma id_becomes_one_encoded_segment_witness :
  exists r : Request,
    requests (getMemoDetail "secret" "acme" (reject network_down)
                {| id := memo_id_with_space |}) = [r] /\
    pathname (url r) = "/teams/acme/posts/release%20notes" /\
    Url.query (url r) = None /\
    fragment (url r) = None.
Proof.
  exact (id_becomes_one_encoded_segment "secret" "acme" (reject network_down)
           {| id := memo_id_with_space |} eq_refl eq_refl).
Defined.

(** X13.  For a plain domain, an id made of a plain segment, a question
    mark and a text without hash, space or control character puts the
    segment in the path and the text, encoded as a query, in the query of
    the detail request. *)
Theorem id_with_question_mark_sets_the_query :
  forall (token domain : string) (fetch : Request -> completion Response)
         (i q : string),
    plain_segment domain = true ->
    plain_segment i = true ->
    query_text q = true ->
    exists r : Request,
      requests (getMemoDetail token domain fetch {| id := i ++ "?" ++ q |}) = [r] /\
      pathname (url r) = "/teams/" ++ domain ++ "/posts/" ++ i /\
      Url.query (url r) = Some (encoded_query q) /\
      fragment (url r) = None.
Proof.
  intros token domain fetch i q Hd Hi Hq.
  exists (getMemoDetail_request token domain {| id := i ++ "?" ++ q |}).
  rewrite getMemoDetail_eq. split; [reflexivity|].
  unfold getMemoDetail_request, pathname. cbn [method url headers id].
  rewrite (URL_new_post_query domain i q BASE_URL Hd Hi Hq).
  repeat split.
Qed.

(** The id [7?include=comments]. *)
Lemma id_with_question_mark_witness :
  exists r : Request,
    requests (getMemoDetail "secret" "acme" (reject network_down)
                {| id := "7?include=comments" |}) = [r] /\
    pathname (url r) = "/teams/acme/posts/7" /\
    Url.query (url r) = Some "include=comments" /\
    fragment (url r) = None.
Proof.
  exact (id_with_question_mark_sets_the_query "secret" "acme" (reject network_down)
           "7" "include=comments" eq_refl eq_refl eq_refl).
Defined.

(** X14.  For a plain domain, the id [../../../x] makes the detail request
    go to [/x]: an id can address a path outside the posts of the team. *)
Theorem id_can_climb_out_of_the_posts :
  forall (token domain : string) (fetch : Request -> completion Response)
         (x : string),
    plain_segment domain = true ->
    plain_segment x = true ->
    exists r : Request,
      requests (getMemoDetail token domain fetch {| id := "../../../" ++ x |}) = [r] /\
      pathname (url r) = "/" ++ x /\
      Url.query (url r) = None /\
      fragment (url r) = None.
Proof.
  intros token domain fetch x Hd Hx.
  exists (getMemoDetail_request token domain {| id := "../../../" ++ x |}).
  rewrite getMemoDetail_eq. split; [reflexivity|].
  unfold getMemoDetail_request, pathname. cbn [method url headers id].
  rewrite (URL_new_post_climb domain x BASE_URL Hd Hx).
  repeat split.
Qed.

(** The id [../../../profile]. *)
Lemma id_can_climb_witness :
  exists r : Request,
    requests (getMemoDetail "secret" "acme" (reject network_down)
                {| id := "../../../profile" |}) = [r] /\
    pathname (url r) = "/profile" /\
    Url.query (url r) = None /\
    fragment (url r) = None.
Proof.
  exact (id_can_climb_out_of_the_posts "secret" "acme" (reject network_down)
           "profile" eq_refl eq_refl).
Defined.

(** ** The text of an answer *)

Lemma SerializeJSONProperty_skips_undefined
      (stepback : string) (before after : list (string * value)) (k : string) :
  SerializeJSONProperty stepback (Obj (before ++ (k, Undefined) :: after))
  = SerializeJSONProperty stepback (Obj (before ++ after)).
Proof.
  cbn [SerializeJSONProperty].
  match goal with
  | |- Some (match ?f ?a with _ => _ end) = _ =>
      assert (E : f a = f (before ++ after)%list)
  end.
  { induction before as [|[k' x] before IH]; [reflexivity|].
    cbn [app]. cbn beta iota fix. rewrite IH. reflexivity. }
  now rewrite E.
Qed.

Lemma SerializeJSONProperty_undefined_element
      (stepback : string) (front back : list value) :
  SerializeJSONProperty stepback (Arr (front ++ Undefined :: back))
  = SerializeJSONProperty stepback (Arr (front ++ Null :: back)).
Proof.
  cbn [SerializeJSONProperty].
  match goal with
  | |- Some (match ?f ?a with _ => _ end) = _ =>
      assert (E : f a = f (front ++ Null :: back)%list)
  end.
  { induction front as [|x front IH]; [reflexivity|].
    cbn [app]. cbn beta iota fix. rewrite IH. reflexivity. }
  now rewrite E.
Qed.

(** A property may be replaced by one that is written the same. *)
Lemma SerializeJSONProperty_member
      (stepback : string) (before after : list (string * value)) (k : string)
      (x y : value) :
  SerializeJSONProperty (stepback ++ gap) x = SerializeJSONProperty (stepback ++ gap) y ->
  SerializeJSONProperty stepback (Obj (before ++ (k, x) :: after))
  = SerializeJSONProperty stepback (Obj (before ++ (k, y) :: after)).
Proof.
  intros Hxy. cbn [SerializeJSONProperty].
  match goal with
  | |- Some (match ?f ?a with _ => _ end) = _ =>
      assert (E : f a = f (before ++ (k, y) :: after)%list)
  end.
  { induction before as [|[k' z] before IH].
    - cbn [app]. cbn beta iota fix. now rewrite Hxy.
    - cbn [app]. cbn beta iota fix. rewrite IH. reflexivity. }
  now rewrite E.
Qed.

(** X15.  In the text of an answer a property that holds [undefined] is
    left out, and an element that holds [undefined] in an array of the
    answer is written [null]. *)
Theorem undefined_is_left_out_of_the_text :
  forall (before after : list (string * value)) (k : string)
         (front back : list value),
    text_result (Obj (before ++ (k, Undefined) :: after))
    = text_result (Obj (before ++ after)) /\
    text_result (Obj (before ++ (k, Arr (front ++ Undefined :: back)) :: after))
    = text_result (Obj (before ++ (k, Arr (front ++ Null :: back)) :: after)).
Proof.
  intros before after k front back.
  unfold text_result, JSON_stringify. split.
  - now rewrite SerializeJSONProperty_skips_undefined.
  - rewrite (SerializeJSONProperty_member "" before after k
               (Arr (front ++ Undefined :: back)) (Arr (front ++ Null :: back))
               (SerializeJSONProperty_undefined_element _ front back)).
    reflexivity.
Qed.
